(** * The workshop LED and thermocouple controller of [spitest/adapter.py]

    A shallow embedding of the [Workshop] class: its attributes become a
    record, its methods become computations in a state-and-exception monad,
    and the two device collaborators, the random module, the clock and the
    tornado timers become explicit parts of the state.

    Conventions of the embedding.
    - Python [int] is [Z]; list subscripts follow Python (a negative
      subscript counts from the end, anything else out of range raises
      [IndexError]).
    - Python [float] is idealised as an exact rational [Q]: sums, quotients
      and comparisons are the mathematical ones and rounding is not
      modelled.  True division by zero raises [ZeroDivisionError].
    - [logging] and [print] calls have no effect on the state and are left
      out.
    - The HTTP wrapper [WorkshopAdapter] and [background_thread_task],
      which nothing calls, are not embedded. *)

From Stdlib Require Import ZArith QArith Lia Lqa Zify ZifyNat String List.
From stdpp Require Import base list strings.

Set Warnings "-register-all".

Open Scope Z_scope.

(** ** Exceptions and results *)

(** The two failures of the parameter tree (one Python class,
    [ParameterTreeError], told apart by what it reports). *)
Inductive ParameterTreeError : Type :=
| NotFound (path : list string)
| ReadOnly (path : list string)
| TypeMismatch (path : list string).

Inductive exn : Type :=
| IndexError
| ZeroDivisionError
| AttributeError
| TreeError (e : ParameterTreeError)
| WorkshopError (e : ParameterTreeError).

Inductive result (A : Type) : Type :=
| Ok (a : A)
| Raise (e : exn).

Arguments Ok {A} a.
Arguments Raise {A} e.

(** ** Python lists *)

Module Py.

(** Position designated by subscript [i] in a list of length [n]. *)
Definition index (n : nat) (i : Z) : option nat :=
  let len := Z.of_nat n in
  if (0 <=? i) && (i <? len) then Some (Z.to_nat i)
  else if (- len <=? i) && (i <? 0) then Some (Z.to_nat (len + i))
  else None.

(** [l[i]] *)
Definition getitem {A : Type} (l : list A) (i : Z) : result A :=
  match index (length l) i with
  | Some k => match l !! k with Some x => Ok x | None => Raise IndexError end
  | None => Raise IndexError
  end.

(** [l[i] = x] *)
Definition setitem {A : Type} (l : list A) (i : Z) (x : A) : result (list A) :=
  match index (length l) i with
  | Some k => Ok (<[k:=x]> l)
  | None => Raise IndexError
  end.

(** [x / d] on floats *)
Definition truediv (x : Q) (d : Q) : result Q :=
  if Qeq_bool d 0 then Raise ZeroDivisionError else Ok (x / d)%Q.

(** [x < y] on floats *)
Definition lt (x y : Q) : bool := negb (Qle_bool y x).

(** [x > y] on floats *)
Definition gt (x y : Q) : bool := lt y x.

End Py.

(** ** Collaborators *)

Inductive direction : Type := IN | OUT.

(** The MCP23008 output bank, seen through the calls it received, oldest
    first: [setup(pin, direction)] and [output(pin, value)]. *)
Record MCP23008 : Type := mkMCP {
  setups : list (Z * direction);
  outputs : list (Z * Z)
}.

(** The MAX31856 thermocouple: the temperature a read returns now. *)
Record Max31856 : Type := mkMax { temperature : Q }.

(** The [random] module: an arbitrary sequence of raw draws and the number
    of draws consumed so far. *)
Record Random : Type := mkRandom {
  tape : nat -> Z;
  pos : nat
}.

Inductive callback : Type := LED_cb | temp_cb.

(** A tornado [PeriodicCallback]: what it calls, its period in
    milliseconds, and whether it is started. *)
Record PeriodicCallback : Type := mkPeriodic {
  target : callback;
  callback_time : Q;
  is_running : bool
}.

(** ** The Workshop object *)

(** The first five fields are the world the object lives in; the others are
    its attributes, in the order [__init__] assigns them.  [detached_tasks]
    holds timers that were started and are no longer referenced by an
    attribute. *)
Record Workshop : Type := mkWorkshop {
  mcp : MCP23008;
  thermoC : Max31856;
  random : Random;
  clock : Q;
  detached_tasks : list PeriodicCallback;
  init_time : Q;
  led_states : list Z;
  avg_temp : Q;
  avg_temp_calc : list Q;
  avg_count : Z;
  ten_count_switch : bool;
  temp_task_enable : bool;
  temp_bounds : list Q;
  task_mode : string;
  LED_task_enable : bool;
  LED_task_interval : Q;
  rave_ioloop_counter : Z;
  traffic_wait_counter : Z;
  traffic_loop_counter : Z;
  temp_count : Z;
  background_thread_counter : Z;
  LED_ioloop_task : option PeriodicCallback;
  temp_ioloop_task : option PeriodicCallback
}.

Definition with_mcp (v : MCP23008) (s : Workshop) : Workshop :=
  mkWorkshop
    v (thermoC s) (random s) (clock s) (detached_tasks s) (init_time s)
    (led_states s) (avg_temp s) (avg_temp_calc s) (avg_count s)
    (ten_count_switch s) (temp_task_enable s) (temp_bounds s) (task_mode s)
    (LED_task_enable s) (LED_task_interval s) (rave_ioloop_counter s)
    (traffic_wait_counter s) (traffic_loop_counter s) (temp_count s)
    (background_thread_counter s) (LED_ioloop_task s) (temp_ioloop_task s).

Definition with_thermoC (v : Max31856) (s : Workshop) : Workshop :=
  mkWorkshop
    (mcp s) v (random s) (clock s) (detached_tasks s) (init_time s)
    (led_states s) (avg_temp s) (avg_temp_calc s) (avg_count s)
    (ten_count_switch s) (temp_task_enable s) (temp_bounds s) (task_mode s)
    (LED_task_enable s) (LED_task_interval s) (rave_ioloop_counter s)
    (traffic_wait_counter s) (traffic_loop_counter s) (temp_count s)
    (background_thread_counter s) (LED_ioloop_task s) (temp_ioloop_task s).

Definition with_random (v : Random) (s : Workshop) : Workshop :=
  mkWorkshop
    (mcp s) (thermoC s) v (clock s) (detached_tasks s) (init_time s)
    (led_states s) (avg_temp s) (avg_temp_calc s) (avg_count s)
    (ten_count_switch s) (temp_task_enable s) (temp_bounds s) (task_mode s)
    (LED_task_enable s) (LED_task_interval s) (rave_ioloop_counter s)
    (traffic_wait_counter s) (traffic_loop_counter s) (temp_count s)
    (background_thread_counter s) (LED_ioloop_task s) (temp_ioloop_task s).

Definition with_clock (v : Q) (s : Workshop) : Workshop :=
  mkWorkshop
    (mcp s) (thermoC s) (random s) v (detached_tasks s) (init_time s)
    (led_states s) (avg_temp s) (avg_temp_calc s) (avg_count s)
    (ten_count_switch s) (temp_task_enable s) (temp_bounds s) (task_mode s)
    (LED_task_enable s) (LED_task_interval s) (rave_ioloop_counter s)
    (traffic_wait_counter s) (traffic_loop_counter s) (temp_count s)
    (background_thread_counter s) (LED_ioloop_task s) (temp_ioloop_task s).

Definition with_detached_tasks (v : list PeriodicCallback) (s : Workshop) : Workshop :=
  mkWorkshop
    (mcp s) (thermoC s) (random s) (clock s) v (init_time s) (led_states s)
    (avg_temp s) (avg_temp_calc s) (avg_count s) (ten_count_switch s)
    (temp_task_enable s) (temp_bounds s) (task_mode s) (LED_task_enable s)
    (LED_task_interval s) (rave_ioloop_counter s) (traffic_wait_counter s)
    (traffic_loop_counter s) (temp_count s) (background_thread_counter s)
    (LED_ioloop_task s) (temp_ioloop_task s).

Definition with_init_time (v : Q) (s : Workshop) : Workshop :=
  mkWorkshop
    (mcp s) (thermoC s) (random s) (clock s) (detached_tasks s) v
    (led_states s) (avg_temp s) (avg_temp_calc s) (avg_count s)
    (ten_count_switch s) (temp_task_enable s) (temp_bounds s) (task_mode s)
    (LED_task_enable s) (LED_task_interval s) (rave_ioloop_counter s)
    (traffic_wait_counter s) (traffic_loop_counter s) (temp_count s)
    (background_thread_counter s) (LED_ioloop_task s) (temp_ioloop_task s).

Definition with_led_states (v : list Z) (s : Workshop) : Workshop :=
  mkWorkshop
    (mcp s) (thermoC s) (random s) (clock s) (detached_tasks s) (init_time s)
    v (avg_temp s) (avg_temp_calc s) (avg_count s) (ten_count_switch s)
    (temp_task_enable s) (temp_bounds s) (task_mode s) (LED_task_enable s)
    (LED_task_interval s) (rave_ioloop_counter s) (traffic_wait_counter s)
    (traffic_loop_counter s) (temp_count s) (background_thread_counter s)
    (LED_ioloop_task s) (temp_ioloop_task s).

Definition with_avg_temp (v : Q) (s : Workshop) : Workshop :=
  mkWorkshop
    (mcp s) (thermoC s) (random s) (clock s) (detached_tasks s) (init_time s)
    (led_states s) v (avg_temp_calc s) (avg_count s) (ten_count_switch s)
    (temp_task_enable s) (temp_bounds s) (task_mode s) (LED_task_enable s)
    (LED_task_interval s) (rave_ioloop_counter s) (traffic_wait_counter s)
    (traffic_loop_counter s) (temp_count s) (background_thread_counter s)
    (LED_ioloop_task s) (temp_ioloop_task s).

Definition with_avg_temp_calc (v : list Q) (s : Workshop) : Workshop :=
  mkWorkshop
    (mcp s) (thermoC s) (random s) (clock s) (detached_tasks s) (init_time s)
    (led_states s) (avg_temp s) v (avg_count s) (ten_count_switch s)
    (temp_task_enable s) (temp_bounds s) (task_mode s) (LED_task_enable s)
    (LED_task_interval s) (rave_ioloop_counter s) (traffic_wait_counter s)
    (traffic_loop_counter s) (temp_count s) (background_thread_counter s)
    (LED_ioloop_task s) (temp_ioloop_task s).

Definition with_avg_count (v : Z) (s : Workshop) : Workshop :=
  mkWorkshop
    (mcp s) (thermoC s) (random s) (clock s) (detached_tasks s) (init_time s)
    (led_states s) (avg_temp s) (avg_temp_calc s) v (ten_count_switch s)
    (temp_task_enable s) (temp_bounds s) (task_mode s) (LED_task_enable s)
    (LED_task_interval s) (rave_ioloop_counter s) (traffic_wait_counter s)
    (traffic_loop_counter s) (temp_count s) (background_thread_counter s)
    (LED_ioloop_task s) (temp_ioloop_task s).

Definition with_ten_count_switch (v : bool) (s : Workshop) : Workshop :=
  mkWorkshop
    (mcp s) (thermoC s) (random s) (clock s) (detached_tasks s) (init_time s)
    (led_states s) (avg_temp s) (avg_temp_calc s) (avg_count s) v
    (temp_task_enable s) (temp_bounds s) (task_mode s) (LED_task_enable s)
    (LED_task_interval s) (rave_ioloop_counter s) (traffic_wait_counter s)
    (traffic_loop_counter s) (temp_count s) (background_thread_counter s)
    (LED_ioloop_task s) (temp_ioloop_task s).

Definition with_temp_task_enable (v : bool) (s : Workshop) : Workshop :=
  mkWorkshop
    (mcp s) (thermoC s) (random s) (clock s) (detached_tasks s) (init_time s)
    (led_states s) (avg_temp s) (avg_temp_calc s) (avg_count s)
    (ten_count_switch s) v (temp_bounds s) (task_mode s) (LED_task_enable s)
    (LED_task_interval s) (rave_ioloop_counter s) (traffic_wait_counter s)
    (traffic_loop_counter s) (temp_count s) (background_thread_counter s)
    (LED_ioloop_task s) (temp_ioloop_task s).

Definition with_temp_bounds (v : list Q) (s : Workshop) : Workshop :=
  mkWorkshop
    (mcp s) (thermoC s) (random s) (clock s) (detached_tasks s) (init_time s)
    (led_states s) (avg_temp s) (avg_temp_calc s) (avg_count s)
    (ten_count_switch s) (temp_task_enable s) v (task_mode s)
    (LED_task_enable s) (LED_task_interval s) (rave_ioloop_counter s)
    (traffic_wait_counter s) (traffic_loop_counter s) (temp_count s)
    (background_thread_counter s) (LED_ioloop_task s) (temp_ioloop_task s).

Definition with_task_mode (v : string) (s : Workshop) : Workshop :=
  mkWorkshop
    (mcp s) (thermoC s) (random s) (clock s) (detached_tasks s) (init_time s)
    (led_states s) (avg_temp s) (avg_temp_calc s) (avg_count s)
    (ten_count_switch s) (temp_task_enable s) (temp_bounds s) v
    (LED_task_enable s) (LED_task_interval s) (rave_ioloop_counter s)
    (traffic_wait_counter s) (traffic_loop_counter s) (temp_count s)
    (background_thread_counter s) (LED_ioloop_task s) (temp_ioloop_task s).

Definition with_LED_task_enable (v : bool) (s : Workshop) : Workshop :=
  mkWorkshop
    (mcp s) (thermoC s) (random s) (clock s) (detached_tasks s) (init_time s)
    (led_states s) (avg_temp s) (avg_temp_calc s) (avg_count s)
    (ten_count_switch s) (temp_task_enable s) (temp_bounds s) (task_mode s) v
    (LED_task_interval s) (rave_ioloop_counter s) (traffic_wait_counter s)
    (traffic_loop_counter s) (temp_count s) (background_thread_counter s)
    (LED_ioloop_task s) (temp_ioloop_task s).

Definition with_LED_task_interval (v : Q) (s : Workshop) : Workshop :=
  mkWorkshop
    (mcp s) (thermoC s) (random s) (clock s) (detached_tasks s) (init_time s)
    (led_states s) (avg_temp s) (avg_temp_calc s) (avg_count s)
    (ten_count_switch s) (temp_task_enable s) (temp_bounds s) (task_mode s)
    (LED_task_enable s) v (rave_ioloop_counter s) (traffic_wait_counter s)
    (traffic_loop_counter s) (temp_count s) (background_thread_counter s)
    (LED_ioloop_task s) (temp_ioloop_task s).

Definition with_rave_ioloop_counter (v : Z) (s : Workshop) : Workshop :=
  mkWorkshop
    (mcp s) (thermoC s) (random s) (clock s) (detached_tasks s) (init_time s)
    (led_states s) (avg_temp s) (avg_temp_calc s) (avg_count s)
    (ten_count_switch s) (temp_task_enable s) (temp_bounds s) (task_mode s)
    (LED_task_enable s) (LED_task_interval s) v (traffic_wait_counter s)
    (traffic_loop_counter s) (temp_count s) (background_thread_counter s)
    (LED_ioloop_task s) (temp_ioloop_task s).

Definition with_traffic_wait_counter (v : Z) (s : Workshop) : Workshop :=
  mkWorkshop
    (mcp s) (thermoC s) (random s) (clock s) (detached_tasks s) (init_time s)
    (led_states s) (avg_temp s) (avg_temp_calc s) (avg_count s)
    (ten_count_switch s) (temp_task_enable s) (temp_bounds s) (task_mode s)
    (LED_task_enable s) (LED_task_interval s) (rave_ioloop_counter s) v
    (traffic_loop_counter s) (temp_count s) (background_thread_counter s)
    (LED_ioloop_task s) (temp_ioloop_task s).

Definition with_traffic_loop_counter (v : Z) (s : Workshop) : Workshop :=
  mkWorkshop
    (mcp s) (thermoC s) (random s) (clock s) (detached_tasks s) (init_time s)
    (led_states s) (avg_temp s) (avg_temp_calc s) (avg_count s)
    (ten_count_switch s) (temp_task_enable s) (temp_bounds s) (task_mode s)
    (LED_task_enable s) (LED_task_interval s) (rave_ioloop_counter s)
    (traffic_wait_counter s) v (temp_count s) (background_thread_counter s)
    (LED_ioloop_task s) (temp_ioloop_task s).

Definition with_temp_count (v : Z) (s : Workshop) : Workshop :=
  mkWorkshop
    (mcp s) (thermoC s) (random s) (clock s) (detached_tasks s) (init_time s)
    (led_states s) (avg_temp s) (avg_temp_calc s) (avg_count s)
    (ten_count_switch s) (temp_task_enable s) (temp_bounds s) (task_mode s)
    (LED_task_enable s) (LED_task_interval s) (rave_ioloop_counter s)
    (traffic_wait_counter s) (traffic_loop_counter s) v
    (background_thread_counter s) (LED_ioloop_task s) (temp_ioloop_task s).

Definition with_background_thread_counter (v : Z) (s : Workshop) : Workshop :=
  mkWorkshop
    (mcp s) (thermoC s) (random s) (clock s) (detached_tasks s) (init_time s)
    (led_states s) (avg_temp s) (avg_temp_calc s) (avg_count s)
    (ten_count_switch s) (temp_task_enable s) (temp_bounds s) (task_mode s)
    (LED_task_enable s) (LED_task_interval s) (rave_ioloop_counter s)
    (traffic_wait_counter s) (traffic_loop_counter s) (temp_count s) v
    (LED_ioloop_task s) (temp_ioloop_task s).

Definition with_LED_ioloop_task (v : option PeriodicCallback) (s : Workshop) : Workshop :=
  mkWorkshop
    (mcp s) (thermoC s) (random s) (clock s) (detached_tasks s) (init_time s)
    (led_states s) (avg_temp s) (avg_temp_calc s) (avg_count s)
    (ten_count_switch s) (temp_task_enable s) (temp_bounds s) (task_mode s)
    (LED_task_enable s) (LED_task_interval s) (rave_ioloop_counter s)
    (traffic_wait_counter s) (traffic_loop_counter s) (temp_count s)
    (background_thread_counter s) v (temp_ioloop_task s).

Definition with_temp_ioloop_task (v : option PeriodicCallback) (s : Workshop) : Workshop :=
  mkWorkshop
    (mcp s) (thermoC s) (random s) (clock s) (detached_tasks s) (init_time s)
    (led_states s) (avg_temp s) (avg_temp_calc s) (avg_count s)
    (ten_count_switch s) (temp_task_enable s) (temp_bounds s) (task_mode s)
    (LED_task_enable s) (LED_task_interval s) (rave_ioloop_counter s)
    (traffic_wait_counter s) (traffic_loop_counter s) (temp_count s)
    (background_thread_counter s) (LED_ioloop_task s) v.

(** Pin numbers *)
Definition RED : Z := 2.
Definition YELLOW : Z := 1.
Definition GREEN : Z := 0.

(** ** The monad of methods *)

(** A method runs on the object and either returns or raises; the state
    reached when an exception is raised is kept, as in Python. *)
Definition M (A : Type) : Type := Workshop -> result A * Workshop.

Definition ret {A : Type} (a : A) : M A := fun s => (Ok a, s).

Definition raise {A : Type} (e : exn) : M A := fun s => (Raise e, s).

Definition bind {A B : Type} (m : M A) (k : A -> M B) : M B :=
  fun s =>
    match m s with
    | (Ok a, s') => k a s'
    | (Raise e, s') => (Raise e, s')
    end.

Definition gets {A : Type} (f : Workshop -> A) : M A := fun s => (Ok (f s), s).

Definition modify (f : Workshop -> Workshop) : M unit := fun s => (Ok tt, f s).

Definition lift {A : Type} (r : result A) : M A := fun s => (r, s).

Notation "x <- m ;; k" := (bind m (fun x => k))
  (at level 100, m at next level, right associativity).
Notation "m ;; k" := (bind m (fun _ => k))
  (at level 100, right associativity).

(** [for i in range(n): body i] *)
Fixpoint for_range_from (start : Z) (n : nat) (body : Z -> M unit) : M unit :=
  match n with
  | O => ret tt
  | S n' => body start ;; for_range_from (start + 1) n' body
  end.

Definition for_range (n : nat) (body : Z -> M unit) : M unit :=
  for_range_from 0 n body.

(** [n] successive calls of a method *)
Fixpoint repeatM (n : nat) (m : M unit) : M unit :=
  match n with
  | O => ret tt
  | S n' => m ;; repeatM n' m
  end.

(** ** Calls on the collaborators *)

(** [self.mcp.setup(pin, d)] *)
Definition mcp_setup (pin : Z) (d : direction) : M unit :=
  modify (fun s =>
    with_mcp (mkMCP (setups (mcp s) ++ [(pin, d)]) (outputs (mcp s))) s).

(** [self.mcp.output(pin, value)] *)
Definition mcp_output (pin value : Z) : M unit :=
  modify (fun s =>
    with_mcp (mkMCP (setups (mcp s)) (outputs (mcp s) ++ [(pin, value)])) s).

(** [random.randint(a, b)]: some integer of [a..b], fixed by the next raw
    draw. *)
Definition randint (a b : Z) : M Z :=
  fun s =>
    let r := random s in
    (Ok (a + tape r (pos r) mod (b - a + 1)),
     with_random (mkRandom (tape r) (S (pos r))) s).

(** ** Methods *)

Definition set_task_mode (mode : string) : M unit :=
  modify (with_task_mode mode).

Definition set_led_state (led state : Z) : M unit :=
  l <- gets led_states ;;
  l' <- lift (Py.setitem l led state) ;;
  modify (with_led_states l') ;;
  mcp_output led state.

Definition update_led (led state : Z) : M unit :=
  mcp_output led state ;;
  l <- gets led_states ;;
  l' <- lift (Py.setitem l led state) ;;
  modify (with_led_states l').

Definition LED_ioloop_callback : M unit :=
  (* RAVE task *)
  mode <- gets task_mode ;;
  (if (mode =? "rave")%string then
     for_range 3 (fun _ =>
       led <- randint 0 2 ;;
       state <- randint 0 1 ;;
       update_led led state) ;;
     modify (fun s => with_rave_ioloop_counter (rave_ioloop_counter s + 1) s)
   else ret tt) ;;
  (* Traffic task *)
  mode <- gets task_mode ;;
  if (mode =? "traffic")%string then
    modify (fun s => with_traffic_wait_counter (traffic_wait_counter s + 1) s) ;;
    c <- gets traffic_wait_counter ;;
    if c =? 2 then
      update_led YELLOW 0 ;;
      update_led RED 1
    else if c =? 14 then
      update_led YELLOW 1
    else if c =? 22 then
      update_led RED 0 ;;
      update_led YELLOW 0 ;;
      update_led GREEN 1
    else if c =? 34 then
      update_led GREEN 0 ;;
      update_led YELLOW 1
    else if c =? 39 then
      modify (with_traffic_wait_counter 0) ;;
      modify (fun s => with_traffic_loop_counter (traffic_loop_counter s + 1) s)
    else ret tt
  else
    (* Thermometer and command mode *)
    ret tt.

(** [for x in l: body x] *)
Fixpoint for_each {A : Type} (l : list A) (body : A -> M unit) : M unit :=
  match l with
  | [] => ret tt
  | x :: l' => body x ;; for_each l' body
  end.

(** [self.avg_temp /= d] *)
Definition div_avg_temp (d : Q) : M unit :=
  a <- gets avg_temp ;;
  a' <- lift (Py.truediv a d) ;;
  modify (with_avg_temp a').

Definition set_temp_bounds (bound : Z) (temp : Q) : M unit :=
  l <- gets temp_bounds ;;
  l' <- lift (Py.setitem l bound temp) ;;
  modify (with_temp_bounds l').

Definition get_server_uptime (s : Workshop) : Q := (clock s - init_time s)%Q.

Definition set_LED_task_interval (interval : Q) : M unit :=
  modify (with_LED_task_interval interval).

(** Assigning an attribute that holds a timer drops the reference to the
    timer held before; a dropped timer that is still started stays on the
    ioloop. *)
Definition detach (old : option PeriodicCallback) (l : list PeriodicCallback)
  : list PeriodicCallback :=
  match old with
  | Some p => if is_running p then p :: l else l
  | None => l
  end.

Definition with_running (b : bool) (p : PeriodicCallback) : PeriodicCallback :=
  mkPeriodic (target p) (callback_time p) b.

Definition start_LED_task : M unit :=
  modify (with_LED_task_enable true) ;;
  (* Register a periodic callback for the ioloop task and start it *)
  interval <- gets LED_task_interval ;;
  modify (fun s =>
    with_LED_ioloop_task (Some (mkPeriodic LED_cb (interval * 1000) false))
      (with_detached_tasks (detach (LED_ioloop_task s) (detached_tasks s)) s)) ;;
  task <- gets LED_ioloop_task ;;
  match task with
  | Some p => modify (with_LED_ioloop_task (Some (with_running true p)))
  | None => raise AttributeError
  end.

Definition stop_LED_task : M unit :=
  modify (with_LED_task_enable false) ;;
  task <- gets LED_ioloop_task ;;
  match task with
  | Some p => modify (with_LED_ioloop_task (Some (with_running false p)))
  | None => raise AttributeError
  end.

Definition set_LED_task_enable (enable : bool) : M unit :=
  current <- gets LED_task_enable ;;
  if negb (Bool.eqb enable current) then
    if enable then start_LED_task else stop_LED_task
  else ret tt.

Definition cleanup : M unit := stop_LED_task.

Definition start_temp_task : M unit :=
  modify (with_temp_task_enable true) ;;
  modify (fun s =>
    with_temp_ioloop_task (Some (mkPeriodic temp_cb 1000 false))
      (with_detached_tasks (detach (temp_ioloop_task s) (detached_tasks s)) s)) ;;
  task <- gets temp_ioloop_task ;;
  match task with
  | Some p => modify (with_temp_ioloop_task (Some (with_running true p)))
  | None => raise AttributeError
  end.

Definition stop_temp_task : M unit :=
  modify (with_temp_task_enable false) ;;
  task <- gets temp_ioloop_task ;;
  match task with
  | Some p => modify (with_temp_ioloop_task (Some (with_running false p)))
  | None => raise AttributeError
  end.

(** The [print] that opens the method reads the thermocouple once more and
    only shows the value. *)
Definition temp_ioloop_callback : M unit :=
  temperature <- gets (fun s => temperature (thermoC s)) ;;
  (* Calculating the rolling average *)
  modify (with_avg_temp 0) ;;
  buf <- gets avg_temp_calc ;;
  i <- gets avg_count ;;
  buf' <- lift (Py.setitem buf i temperature) ;;
  modify (with_avg_temp_calc buf') ;;
  modify (fun s => with_avg_count (avg_count s + 1) s) ;;
  buf <- gets avg_temp_calc ;;
  for_each buf (fun temp =>
    modify (fun s => with_avg_temp (avg_temp s + temp)%Q s)) ;;
  switch <- gets ten_count_switch ;;
  (if switch then
     div_avg_temp 10 ;;
     c <- gets avg_count ;;
     if c =? 10 then (* count still needs reset at 10 *)
       modify (with_avg_count 0)
     else ret tt
   else
     c <- gets avg_count ;;
     if c <? 10 then
       div_avg_temp (inject_Z c)
     else
       modify (with_ten_count_switch true) ;; (* once 10 temps recorded *)
       div_avg_temp 10 ;;                     (* always divide by 10 for avg *)
       modify (with_avg_count 0)) ;;
  modify (fun s => with_temp_count (temp_count s + 1) s) ;;
  mode <- gets task_mode ;;
  if (mode =? "thermometer")%string then
    update_led RED 0 ;;     (* Turn LEDs off so that *)
    update_led YELLOW 0 ;;  (* only one is on at once *)
    update_led GREEN 0 ;;
    bounds <- gets temp_bounds ;;
    lower <- lift (Py.getitem bounds 0) ;;
    if Py.lt temperature lower then (* < Lower bound *)
      update_led YELLOW 1
    else
      upper <- lift (Py.getitem bounds 1) ;;
      between <- (if Py.lt temperature upper then
                    lower <- lift (Py.getitem bounds 0) ;;
                    ret (Py.gt temperature lower)
                  else ret false) ;;
      if between then (* elif lower < temp < upper *)
        update_led GREEN 1
      else
        upper <- lift (Py.getitem bounds 1) ;;
        if Py.gt temperature upper then
          update_led RED 1
        else ret tt
  else ret tt.

(** The object before [__init__] has run: no attribute is set yet (the
    values below are placeholders that [__init__] overwrites, and the two
    timer attributes do not exist until a task is started).  The world is
    given: the output bank with the calls it has seen, the sensor, the
    random source and the clock. *)
Definition blank (bank : MCP23008) (sensor : Max31856) (rnd : Random)
    (now : Q) : Workshop :=
  mkWorkshop bank sensor rnd now [] 0 [] 0 [] 0 false false [] "" false 0
             0 0 0 0 0 None None.

Definition Workshop_init (LED_task_enable_arg : bool)
    (LED_task_interval_arg : Q) (temp_task_enable_arg : bool) : M unit :=
  (* Store initialisation time *)
  now <- gets clock ;;
  modify (with_init_time now) ;;
  (* Initialise MCP23008 device *)
  for_range 3 (fun pin =>
    mcp_setup pin OUT ;;
    mcp_output pin 0) ;;
  modify (with_led_states (replicate 3 0)) ;;
  (* Set up thermocouple instance and variables *)
  modify (with_avg_temp 0) ;;
  modify (with_avg_temp_calc (replicate 10 0%Q)) ;;
  modify (with_avg_count 0) ;;
  modify (with_ten_count_switch false) ;;
  modify (with_temp_task_enable temp_task_enable_arg) ;;
  modify (with_temp_bounds [43 # 2; 22]%Q) ;;
  (* Save LED_task arguments *)
  modify (with_task_mode "command") ;;
  modify (with_LED_task_enable LED_task_enable_arg) ;;
  modify (with_LED_task_interval LED_task_interval_arg) ;;
  (* Set the background task counters to zero *)
  modify (with_rave_ioloop_counter 0) ;;
  modify (with_traffic_wait_counter 0) ;;
  modify (with_traffic_loop_counter 0) ;;
  modify (with_temp_count 0) ;;
  modify (with_background_thread_counter 0) ;;
  (* Launch the background tasks if enabled in options *)
  enable <- gets LED_task_enable ;;
  (if enable then start_LED_task else ret tt) ;;
  enable <- gets temp_task_enable ;;
  if enable then start_temp_task else ret tt.

(** ** The parameter tree *)

(** [odin.adapters.parameter_tree] is imported by the adapter and is not
    part of its source; the definitions of this module are the model of it,
    written from the specification of the parameter interface. *)
Module ParameterTree.

(** Modelled from the spec: the kinds of value a leaf of the missing
    [ParameterTree] holds and a write carries. *)
Inductive kind : Type := KInt | KFloat | KBool | KStr.

(** Modelled from the spec: the values of a kind. *)
Definition denote (k : kind) : Type :=
  match k with
  | KInt => Z
  | KFloat => Q
  | KBool => bool
  | KStr => string
  end.

(** Modelled from the spec: a value read from or written to the missing
    [ParameterTree], as JSON carries it. *)
Inductive value : Type :=
| VInt (z : Z)
| VFloat (q : Q)
| VBool (b : bool)
| VStr (s : string).

(** Modelled from the spec: what a getter returns, as a value. *)
Definition inject (k : kind) : denote k -> value :=
  match k with
  | KInt => VInt
  | KFloat => VFloat
  | KBool => VBool
  | KStr => VStr
  end.

(** Modelled from the spec: how the missing [ParameterTree] hands a
    written value to a setter.  The value is read at the kind of the leaf:
    [int(v)], [float(v)], [bool(v)] and [str(v)] on the values that already
    are of that kind, a Python [bool] being an [int] and an [int] being
    accepted for a [float]. *)
Definition coerce (k : kind) (v : value) : option (denote k) :=
  match k, v with
  | KInt, VInt z => Some z
  | KInt, VBool b => Some (Z.b2z b)
  | KFloat, VFloat q => Some q
  | KFloat, VInt z => Some (inject_Z z)
  | KBool, VBool b => Some b
  | KStr, VStr s => Some s
  | _, _ => None
  end.

(** The second component of a leaf's pair as the source writes it: [None],
    a function, or something that cannot be called. *)
Inductive slot (k : kind) : Type :=
| NoSetter
| Setter (f : denote k -> M unit)
| NotCallable (v : value).

Arguments NoSetter {k}.
Arguments Setter {k} & f.
Arguments NotCallable {k} v.

(** Modelled from the spec: the type of [ParameterTree] nodes, missing from
    the source.  A node maps string keys to a (getter, setter-or-null) pair
    or to a nested node; a plain value is a leaf that returns it and has no
    setter. *)
Inductive tree : Type :=
| Leaf (k : kind) (getter : Workshop -> denote k) (setter : slot k)
| Const (v : value)
| Node (children : list (string * tree)).

(** Modelled from the spec: what [get] of the missing [ParameterTree]
    returns and what its [set] is given, a value or a dictionary. *)
Inductive data : Type :=
| Val (v : value)
| Dict (items : list (string * data)).

(** Modelled from the spec: the child of a node of the missing
    [ParameterTree] under a key, the first if the key is repeated. *)
Fixpoint lookup (key : string) (children : list (string * tree))
  : option tree :=
  match children with
  | [] => None
  | (k, t) :: rest => if (k =? key)%string then Some t else lookup key rest
  end.

(** Modelled from the spec: the node of the missing [ParameterTree] that a
    path, given as its list of keys, leads to. *)
Fixpoint resolve (t : tree) (path : list string) : option tree :=
  match path with
  | [] => Some t
  | key :: rest =>
      match t with
      | Node children =>
          match lookup key children with
          | Some child => resolve child rest
          | None => None
          end
      | _ => None
      end
  end.

(** Modelled from the spec: the subtree or leaf value that [get] of the
    missing [ParameterTree] returns for a node, every getter called on the
    object. *)
Fixpoint read (s : Workshop) (t : tree) : data :=
  match t with
  | Leaf k getter _ => Val (inject k (getter s))
  | Const v => Val v
  | Node children =>
      Dict ((fix read_all (l : list (string * tree)) : list (string * data) :=
               match l with
               | [] => []
               | (key, child) :: rest => (key, read s child) :: read_all rest
               end) children)
  end.

(** Modelled from the spec: [ParameterTree.get], missing from the source.
    It returns the subtree or leaf value at the path and fails with a
    not-found error if the path does not exist. *)
Definition get (t : tree) (path : list string) : M data :=
  match resolve t path with
  | Some node => gets (fun s => read s node)
  | None => raise (TreeError (NotFound path))
  end.

(** Modelled from the spec: the setter of a leaf of the missing
    [ParameterTree], absent when the pair holds no function. *)
Definition setter_of {k : kind} (sl : slot k) : option (denote k -> M unit) :=
  match sl with
  | Setter f => Some f
  | NoSetter | NotCallable _ => None
  end.

(** Modelled from the spec: the key/value writes of [d] that [set] of the
    missing [ParameterTree] applies below node [t], found at [path]. *)
Fixpoint merge (d : data) (t : tree) (path : list string) : M unit :=
  match d with
  | Val v =>
      match t with
      | Leaf k _ sl =>
          match setter_of sl with
          | Some f =>
              match coerce k v with
              | Some x => f x
              | None => raise (TreeError (TypeMismatch path))
              end
          | None => raise (TreeError (ReadOnly path))
          end
      | Const _ => raise (TreeError (ReadOnly path))
      | Node _ => raise (TreeError (TypeMismatch path))
      end
  | Dict items =>
      match t with
      | Node children =>
          (fix merge_all (l : list (string * data)) : M unit :=
             match l with
             | [] => ret tt
             | (key, d') :: rest =>
                 match lookup key children with
                 | Some child =>
                     merge d' child (path ++ [key]) ;; merge_all rest
                 | None => raise (TreeError (NotFound (path ++ [key])))
                 end
             end) items
      | Leaf k _ sl =>
          match setter_of sl with
          | Some _ => raise (TreeError (TypeMismatch path))
          | None => raise (TreeError (ReadOnly path))
          end
      | Const _ => raise (TreeError (ReadOnly path))
      end
  end.

(** Modelled from the spec: [ParameterTree.set], missing from the source.
    It applies the key/value writes at the given path, invoking each
    leaf's setter, and fails with a read-only error where a setter is
    absent and with a not-found error where the path does not exist.  The
    spec does not say what a write of the wrong shape or kind does; here it
    is refused with a third error. *)
Definition set (t : tree) (path : list string) (d : data) : M unit :=
  match resolve t path with
  | Some node => merge d node path
  | None => raise (TreeError (NotFound path))
  end.

End ParameterTree.

Import ParameterTree.

(** ** The tree of the Workshop and its two entry points *)

(** The tree [__init__] builds.  Its leaves close over the object, so they
    are functions of the state; the versions come from the odin and tornado
    packages, and [enable_slot] is the value [self.LED_task_enable] has
    when the 'enable' pair is built. *)
Definition LED_task (enable_slot : bool) : tree :=
  Node [
    ("rave_count", Leaf KInt rave_ioloop_counter NoSetter);
    ("traffic_count", Leaf KInt traffic_loop_counter NoSetter);
    ("enable", Leaf KBool LED_task_enable (NotCallable (VBool enable_slot)));
    ("task_mode", Leaf KStr task_mode (Setter (fun mode => set_task_mode mode)));
    ("interval", Leaf KFloat LED_task_interval (Setter set_LED_task_interval))
  ].

(** [self.led_states[led]] in a getter, which cannot raise on a state the
    methods produce; 0 stands for the exception. *)
Definition led_state (led : Z) (s : Workshop) : Z :=
  match Py.getitem (led_states s) led with Ok x => x | Raise _ => 0 end.

Definition led_tree : tree :=
  Node [
    ("red", Leaf KInt (led_state RED)
              (Setter (fun state => set_led_state RED state)));
    ("yellow", Leaf KInt (led_state YELLOW)
                 (Setter (fun state => set_led_state YELLOW state)));
    ("green", Leaf KInt (led_state GREEN)
                (Setter (fun state => set_led_state GREEN state)))
  ].

Definition temp_bound (bound : Z) (s : Workshop) : Q :=
  match Py.getitem (temp_bounds s) bound with Ok x => x | Raise _ => 0%Q end.

Definition thermo_bound_tree : tree :=
  Node [
    ("lower", Leaf KFloat (temp_bound 0)
                (Setter (fun temp => set_temp_bounds 0 temp)));
    ("upper", Leaf KFloat (temp_bound 1)
                (Setter (fun temp => set_temp_bounds 1 temp)))
  ].

Definition thermo_tree : tree :=
  Node [
    ("temperature", Leaf KFloat (fun s => temperature (thermoC s)) NoSetter);
    ("rolling_avg", Leaf KFloat avg_temp NoSetter);
    ("temps_counted", Leaf KInt temp_count NoSetter);
    ("temp_bounds", thermo_bound_tree)
  ].

Definition param_tree (odin_version tornado_version : string)
    (enable_slot : bool) : tree :=
  Node [
    ("odin_version", Const (VStr odin_version));
    ("tornado_version", Const (VStr tornado_version));
    ("server_uptime", Leaf KFloat get_server_uptime NoSetter);
    ("LED_task", LED_task enable_slot);
    ("leds", led_tree);
    ("temperature", thermo_tree)
  ].

(** [Workshop.get]: the tree's answer, errors included. *)
Definition Workshop_get (t : tree) (path : list string) : M data :=
  ParameterTree.get t path.

(** [Workshop.set]: a [ParameterTreeError] is re-raised as a
    [WorkshopError] that carries it. *)
Definition Workshop_set (t : tree) (path : list string) (d : data) : M unit :=
  fun s =>
    match ParameterTree.set t path d s with
    | (Raise (TreeError e), s') => (Raise (WorkshopError e), s')
    | other => other
    end.

(** ** Running the object *)

(** A new object in a given world: [Workshop(LED_task_enable,
    LED_task_interval, temp_task_enable)]. *)
Definition Workshop_new (bank : MCP23008) (sensor : Max31856) (rnd : Random)
    (now : Q) (LED_task_enable_arg : bool) (LED_task_interval_arg : Q)
    (temp_task_enable_arg : bool) : Workshop :=
  snd (Workshop_init LED_task_enable_arg LED_task_interval_arg
         temp_task_enable_arg (blank bank sensor rnd now)).

(** The world moves: the thermocouple now reads [t]. *)
Definition sense (t : Q) : M unit := modify (with_thermoC (mkMax t)).

(** One firing of the slow timer while the thermocouple reads [t]. *)
Definition slow_tick (t : Q) : M unit := sense t ;; temp_ioloop_callback.

Definition slow_ticks (ts : list Q) : M unit := for_each ts slow_tick.

(** [n] firings of the fast timer. *)
Definition fast_ticks (n : nat) : M unit := repeatM n LED_ioloop_callback.

Inductive colour : Type := Red | Yellow | Green.

Definition pin (c : colour) : Z :=
  match c with
  | Red => RED
  | Yellow => YELLOW
  | Green => GREEN
  end.

(** What can happen to the object once it is built: the two timers fire,
    and the leaves of the tree that have a setter are written. *)
Inductive op : Type :=
| FastTick
| SlowTick (t : Q)
| WriteLed (c : colour) (state : Z)
| WriteMode (mode : string)
| WriteInterval (interval : Q)
| WriteBound (upper : bool) (temp : Q).

Definition run_op (o : op) : M unit :=
  match o with
  | FastTick => LED_ioloop_callback
  | SlowTick t => slow_tick t
  | WriteLed c state => set_led_state (pin c) state
  | WriteMode mode => set_task_mode mode
  | WriteInterval interval => set_LED_task_interval interval
  | WriteBound upper temp => set_temp_bounds (if upper then 1 else 0) temp
  end.

Definition run_ops (ops : list op) : M unit := for_each ops run_op.

(** ** The effect of the methods, as functions on the state *)

(** One level commanded on a pin of the bank and mirrored in
    [led_states]. *)
Definition commanded (led v : Z) (s : Workshop) : Workshop :=
  with_led_states (<[Z.to_nat led := v]> (led_states s))
    (with_mcp (mkMCP (setups (mcp s)) (outputs (mcp s) ++ [(led, v)])) s).

Definition commanded_all (acts : list (Z * Z)) (s : Workshop) : Workshop :=
  fold_left (fun s' a => commanded (fst a) (snd a) s') acts s.

(** The table of the traffic sequence: the levels commanded when the phase
    counter reaches [c]. *)
Definition traffic_actions (c : Z) : list (Z * Z) :=
  if c =? 2 then [(YELLOW, 0); (RED, 1)]
  else if c =? 14 then [(YELLOW, 1)]
  else if c =? 22 then [(RED, 0); (YELLOW, 0); (GREEN, 1)]
  else if c =? 34 then [(GREEN, 0); (YELLOW, 1)]
  else [].

(** The levels commanded during ticks [first], ..., [first + n - 1]. *)
Fixpoint traffic_trace (first : Z) (n : nat) : list (Z * Z) :=
  match n with
  | O => []
  | S n' => traffic_actions first ++ traffic_trace (first + 1) n'
  end.

Definition traffic_next (s : Workshop) : Workshop :=
  let c := traffic_wait_counter s + 1 in
  let s1 := commanded_all (traffic_actions c) (with_traffic_wait_counter c s) in
  if c =? 39 then
    with_traffic_loop_counter (traffic_loop_counter s + 1)
      (with_traffic_wait_counter 0 s1)
  else s1.

(** The [k]-th next result of [random.randint(a, b)]. *)
Definition draw (r : Random) (k : nat) (a b : Z) : Z :=
  a + tape r (k + pos r)%nat mod (b - a + 1).

(** The three calls of a rave tick. *)
Definition rave_calls (r : Random) : list (Z * Z) :=
  [(draw r 0 0 2, draw r 1 0 1);
   (draw r 2 0 2, draw r 3 0 1);
   (draw r 4 0 2, draw r 5 0 1)].

Definition rave_next (s : Workshop) : Workshop :=
  let r := random s in
  let s1 := commanded_all (rave_calls r)
              (with_random (mkRandom (tape r) (6 + pos r)) s) in
  with_rave_ioloop_counter (rave_ioloop_counter s + 1) s1.

(** A call the bank accepts: a channel of 0..2 and a level of 0..1. *)
Definition valid_call (a : Z * Z) : Prop :=
  0 <= fst a <= 2 /\ 0 <= snd a <= 1.

(** The number the sum of the buffer is divided by, from the switch before
    the tick and the cursor after its increment. *)
Definition divisor (switch : bool) (count : Z) : Z :=
  if switch then 10 else if count <? 10 then count else 10.

(** The sampling half of the slow tick. *)
Definition sampled (t : Q) (s : Workshop) : Workshop :=
  let buf := <[Z.to_nat (avg_count s) := t]> (avg_temp_calc s) in
  let c := avg_count s + 1 in
  with_temp_count (temp_count s + 1)
    (with_avg_count (if c =? 10 then 0 else c)
      (with_ten_count_switch (ten_count_switch s || negb (c <? 10))
        (with_avg_temp
           (fold_left Qplus buf 0 / inject_Z (divisor (ten_count_switch s) c))%Q
           (with_avg_temp_calc buf s)))).

(** The indicator the thermometer lights after it has put all three out. *)
Definition indicator (t lower upper : Q) : list (Z * Z) :=
  if Py.lt t lower then [(YELLOW, 1)]
  else if Py.lt t upper && Py.gt t lower then [(GREEN, 1)]
  else if Py.gt t upper then [(RED, 1)]
  else [].

Definition all_off : list (Z * Z) := [(RED, 0); (YELLOW, 0); (GREEN, 0)].

(** The indicating half of the slow tick. *)
Definition shown (t lower upper : Q) (s : Workshop) : Workshop :=
  if (task_mode s =? "thermometer")%string then
    commanded_all (all_off ++ indicator t lower upper) s
  else s.

(** ** Invariants *)

Definition leds_ok (s : Workshop) : Prop := length (led_states s) = 3%nat.

Definition sampler_ok (s : Workshop) : Prop :=
  length (avg_temp_calc s) = 10%nat /\ 0 <= avg_count s <= 9.

Definition bounds_ok (s : Workshop) : Prop := length (temp_bounds s) = 2%nat.

Definition wf (s : Workshop) : Prop := leds_ok s /\ sampler_ok s /\ bounds_ok s.

(** The sampler as [__init__] leaves it. *)
Definition fresh_sampler (s : Workshop) : Prop :=
  avg_temp_calc s = replicate 10 0%Q /\ avg_count s = 0 /\
  ten_count_switch s = false.

(** The level most recently commanded on a channel, if any was. *)
Fixpoint last_level (calls : list (Z * Z)) (channel : Z) : option Z :=
  match calls with
  | [] => None
  | (c, v) :: rest =>
      match last_level rest channel with
      | Some v' => Some v'
      | None => if c =? channel then Some v else None
      end
  end.

(** [led_states] mirrors the bank on the three channels. *)
Definition mirrored (s : Workshop) : Prop :=
  forall i : Z, 0 <= i <= 2 ->
    led_states s !! Z.to_nat i = last_level (outputs (mcp s)) i /\
    is_Some (led_states s !! Z.to_nat i).

(** The calls [acts], all on the three channels, are what happened to the
    bank and to [led_states] between [s] and [s']. *)
Definition led_effect (acts : list (Z * Z)) (s s' : Workshop) : Prop :=
  Forall (fun a => 0 <= fst a <= 2) acts /\
  led_states s' =
    fold_left (fun l a => <[Z.to_nat (fst a) := snd a]> l) acts (led_states s) /\
  outputs (mcp s') = outputs (mcp s) ++ acts.

(** ** Sums and windows *)

Definition Qsum (l : list Q) : Q := fold_right Qplus 0%Q l.


(** Everything the buffer has held: the ten zeros of [__init__], then the
    samples [ts] in order of arrival. *)
Definition history (ts : list Q) : list Q := replicate 10 0%Q ++ ts.

(** The place in the history of what slot [j] holds once [k] samples have
    been written. *)
Definition slot_source (k j : nat) : nat := (k + (j + 10 - k mod 10) mod 10)%nat.

(** The sampler after the samples [ts]: the cursor and the switch follow
    the number of samples, and the buffer holds the last ten entries of the
    history, each in its slot. *)
Definition window_inv (ts : list Q) (s : Workshop) : Prop :=
  length (avg_temp_calc s) = 10%nat /\
  avg_count s = Z.of_nat (length ts mod 10) /\
  ten_count_switch s = (10 <=? length ts)%nat /\
  (forall j : nat, (j < 10)%nat ->
     avg_temp_calc s !! j = history ts !! slot_source (length ts) j) /\
  (Qsum (avg_temp_calc s) == Qsum (skipn (length ts) (history ts)))%Q.

(** ** Statements of the specification that need a condition *)

(** After the slow tick, [led_states] (GREEN, YELLOW, RED in pin order) and
    the calls made are those of the three outputs forced to 0 and then of
    the one indicator [lit], or of none. *)
Definition lights_only (lit : option Z) (s s' : Workshop) : Prop :=
  led_states s' =
    match lit with
    | Some led => <[Z.to_nat led := 1]> [0; 0; 0]
    | None => [0; 0; 0]
    end /\
  outputs (mcp s') =
    outputs (mcp s) ++ all_off ++
    match lit with Some led => [(led, 1)] | None => [] end.

(** The thermometer table read on a state with bounds [lower], [upper]. *)
Definition thermometer_table (s : Workshop) (lower upper : Q) : Prop :=
  let t := temperature (thermoC s) in
  exists s', temp_ioloop_callback s = (Ok tt, s') /\
    ((t < lower)%Q -> lights_only (Some YELLOW) s s') /\
    ((lower < t)%Q /\ (t < upper)%Q -> lights_only (Some GREEN) s s') /\
    ((upper < t)%Q -> lights_only (Some RED) s s') /\
    ((t == lower)%Q \/ (t == upper)%Q -> lights_only None s s').

(** A fast tick that makes no call to the output bank. *)
Definition fast_tick_silent (s : Workshop) : Prop :=
  outputs (mcp (snd (LED_ioloop_callback s))) = outputs (mcp s).

(** The fast timer is started, be it the one the object holds or one it
    dropped. *)
Definition fast_task_running (s : Workshop) : bool :=
  match LED_ioloop_task s with
  | Some p => is_running p
  | None => false
  end
  || existsb (fun p =>
       match target p with LED_cb => is_running p | temp_cb => false end)
       (detached_tasks s).

(** ** Examples of objects *)

(** A new object with the default options, in a world where the bank has
    seen no call, the thermocouple reads 21 degrees and the raw draws are
    0, 1, 2, ... *)
Definition lab : Workshop :=
  Workshop_new (mkMCP [] []) (mkMax 21) (mkRandom Z.of_nat 0) 0 true (1 # 4) true.

Definition in_mode (mode : string) (s : Workshop) : Workshop :=
  snd (set_task_mode mode s).

(** An object in thermometer mode whose bounds were written the wrong way
    round, 22 below and 21 above, while the thermocouple reads 21.5. *)
Definition inverted : Workshop :=
  snd (sense (43 # 2)
        (snd (set_temp_bounds 1 21
               (snd (set_temp_bounds 0 22 (in_mode "thermometer" lab)))))).

(** ** Further calls on the object *)

(** The state an operation leaves, as a function of the state it finds. *)
Definition after_op (o : op) (s : Workshop) : Workshop :=
  match o with
  | FastTick =>
      if (task_mode s =? "rave")%string then rave_next s
      else if (task_mode s =? "traffic")%string then traffic_next s
      else s
  | SlowTick t =>
      shown t (temp_bound 0 s) (temp_bound 1 s)
        (sampled t (with_thermoC (mkMax t) s))
  | WriteLed c state => commanded (pin c) state s
  | WriteMode mode => with_task_mode mode s
  | WriteInterval interval => with_LED_task_interval interval s
  | WriteBound upper temp =>
      with_temp_bounds
        (<[Z.to_nat (if upper then 1 else 0) := temp]> (temp_bounds s)) s
  end.




(** The timer an attribute holds is started. *)
Definition started (task : option PeriodicCallback) : bool :=
  match task with
  | Some p => is_running p
  | None => false
  end.

(** The number of slow ticks among operations. *)
Fixpoint slow_tick_count (ops : list op) : Z :=
  match ops with
  | [] => 0
  | SlowTick _ :: rest => 1 + slow_tick_count rest
  | _ :: rest => slow_tick_count rest
  end.

(** An LED is written with a level of 0 or 1, if it is written. *)
Definition binary_write (o : op) : Prop :=
  match o with
  | WriteLed _ state => 0 <= state <= 1
  | _ => True
  end.

(** The calls an operation makes to the output bank. *)
Definition op_calls (o : op) (s : Workshop) : list (Z * Z) :=
  match o with
  | FastTick =>
      if (task_mode s =? "rave")%string then rave_calls (random s)
      else if (task_mode s =? "traffic")%string then
        traffic_actions (traffic_wait_counter s + 1)
      else []
  | SlowTick t =>
      if (task_mode s =? "thermometer")%string then
        all_off ++ indicator t (temp_bound 0 s) (temp_bound 1 s)
      else []
  | WriteLed c state => [(pin c, state)]
  | _ => []
  end.

(** ** The HTTP adapter *)

(** What a response carries: the value read from the tree, the message of
    a tree error, or the message that the body of the request could not be
    decoded. *)
Inductive content : Type :=
| Payload (d : data)
| ErrorMessage (e : ParameterTreeError)
| DecodeFailure.

Record ApiAdapterResponse : Type := mkResponse {
  response : content;
  content_type : string;
  status_code : Z
}.

(** [WorkshopAdapter.get]: only a [ParameterTreeError] is caught. *)
Definition WorkshopAdapter_get (t : tree) (path : list string)
  : M ApiAdapterResponse :=
  fun s =>
    match Workshop_get t path s with
    | (Ok d, s') => (Ok (mkResponse (Payload d) "application/json" 200), s')
    | (Raise (TreeError e), s') =>
        (Ok (mkResponse (ErrorMessage e) "application/json" 400), s')
    | (Raise other, s') => (Raise other, s')
    end.

(** [WorkshopAdapter.put] on a request whose body [json_decode] turns into
    [body], or fails to decode when [body] is [None].  A [WorkshopError]
    and the failure to decode are caught; an error of the [get] that
    follows the write is not. *)
Definition WorkshopAdapter_put (t : tree) (path : list string)
    (body : option data) : M ApiAdapterResponse :=
  match body with
  | None => ret (mkResponse DecodeFailure "application/json" 400)
  | Some d =>
      fun s =>
        match Workshop_set t path d s with
        | (Ok _, s1) =>
            match Workshop_get t path s1 with
            | (Ok r, s2) =>
                (Ok (mkResponse (Payload r) "application/json" 200), s2)
            | (Raise e, s2) => (Raise e, s2)
            end
        | (Raise (WorkshopError e), s1) =>
            (Ok (mkResponse (ErrorMessage e) "application/json" 400), s1)
        | (Raise other, s1) => (Raise other, s1)
        end
  end.

(** The key of an LED in the tree. *)
Definition led_key (c : colour) : string :=
  match c with
  | Red => "red"
  | Yellow => "yellow"
  | Green => "green"
  end.

(** * Properties *)

(** ** Running the monad *)

Lemma bind_run {A B : Type} (m : M A) (k : A -> M B) s a s' :
  m s = (Ok a, s') -> bind m k s = k a s'.
Proof. intros H. unfold bind. rewrite H. reflexivity. Qed.

Lemma repeatM_add (n m : nat) (c : M unit) s s' :
  repeatM n c s = (Ok tt, s') ->
  repeatM (n + m) c s = repeatM m c s'.
Proof.
  revert s. induction n as [|n IH]; intros s H; cbn [repeatM Nat.add] in *.
  - unfold ret in H. congruence.
  - unfold bind in *. destruct (c s) as [[[]|e] s1]; [|discriminate].
    apply IH. exact H.
Qed.

Lemma for_each_app {A : Type} (l1 l2 : list A) (body : A -> M unit) s s' :
  for_each l1 body s = (Ok tt, s') ->
  for_each (l1 ++ l2) body s = for_each l2 body s'.
Proof.
  revert s. induction l1 as [|x l1 IH]; intros s H; cbn [for_each app] in *.
  - unfold ret in H. congruence.
  - unfold bind in *. destruct (body x s) as [[[]|e] s1]; [|discriminate].
    apply IH. exact H.
Qed.

(** ** Subscripts *)

Lemma index_in_range (n : nat) (i : Z) :
  0 <= i < Z.of_nat n -> Py.index n i = Some (Z.to_nat i).
Proof.
  intros H. unfold Py.index.
  destruct (Z.leb_spec 0 i); [|lia].
  destruct (Z.ltb_spec i (Z.of_nat n)); [|lia].
  reflexivity.
Qed.

Lemma setitem_in_range {A : Type} (l : list A) (i : Z) (x : A) :
  0 <= i < Z.of_nat (length l) ->
  Py.setitem l i x = Ok (<[Z.to_nat i := x]> l).
Proof. intros H. unfold Py.setitem. rewrite index_in_range by exact H. reflexivity. Qed.

(** ** Commanding a level *)

Lemma update_led_ok (led v : Z) (s : Workshop) :
  0 <= led < Z.of_nat (length (led_states s)) ->
  update_led led v s = (Ok tt, commanded led v s).
Proof.
  intros H. unfold update_led, bind, mcp_output, modify, gets, lift.
  cbn [led_states with_mcp]. rewrite setitem_in_range by exact H. reflexivity.
Qed.

Lemma set_led_state_ok (led v : Z) (s : Workshop) :
  0 <= led < Z.of_nat (length (led_states s)) ->
  set_led_state led v s = (Ok tt, commanded led v s).
Proof.
  intros H. unfold set_led_state, bind, mcp_output, modify, gets, lift.
  rewrite setitem_in_range by exact H. reflexivity.
Qed.

Lemma commanded_length (led v : Z) (s : Workshop) :
  length (led_states (commanded led v s)) = length (led_states s).
Proof. unfold commanded. cbn. apply length_insert. Qed.

(** Only [led_states] and the bank change. *)
Lemma commanded_all_frame (acts : list (Z * Z)) (s : Workshop) :
  commanded_all acts s =
  with_led_states (led_states (commanded_all acts s))
    (with_mcp (mcp (commanded_all acts s)) s).
Proof.
  revert s. induction acts as [|a acts IH]; intros s.
  - destruct s; reflexivity.
  - cbn [commanded_all fold_left]. fold (commanded_all acts (commanded (fst a) (snd a) s)).
    rewrite IH at 1. destruct s; reflexivity.
Qed.

Lemma commanded_all_length (acts : list (Z * Z)) (s : Workshop) :
  length (led_states (commanded_all acts s)) = length (led_states s).
Proof.
  revert s. induction acts as [|a acts IH]; intros s; [reflexivity|].
  cbn [commanded_all fold_left]. fold (commanded_all acts (commanded (fst a) (snd a) s)).
  rewrite IH. apply commanded_length.
Qed.

Lemma commanded_all_outputs (acts : list (Z * Z)) (s : Workshop) :
  outputs (mcp (commanded_all acts s)) = outputs (mcp s) ++ acts.
Proof.
  revert s. induction acts as [|a acts IH]; intros s.
  - cbn. rewrite app_nil_r. reflexivity.
  - cbn [commanded_all fold_left]. fold (commanded_all acts (commanded (fst a) (snd a) s)).
    rewrite IH. cbn. rewrite <- app_assoc. destruct a; reflexivity.
Qed.

(** ** Random draws *)

Lemma draw_range (r : Random) (k : nat) (a b : Z) :
  a <= b -> a <= draw r k a b <= b.
Proof.
  intros H. unfold draw.
  pose proof (Z.mod_pos_bound (tape r (k + pos r)%nat) (b - a + 1)). lia.
Qed.

Lemma rave_calls_valid (r : Random) : Forall valid_call (rave_calls r).
Proof.
  unfold rave_calls, valid_call.
  repeat constructor; cbn [fst snd]; apply draw_range; lia.
Qed.

(** ** Steps of a method *)

Section Run.
Context {A B C : Type}.

Lemma run_assoc (m : M A) (k : A -> M B) (k' : B -> M C) (s : Workshop) :
  bind (bind m k) k' s = bind m (fun x => bind (k x) k') s.
Proof. unfold bind. destruct (m s) as [[a|e] s1]; reflexivity. Qed.

Lemma run_ret (a : A) (k : A -> M B) (s : Workshop) :
  bind (ret a) k s = k a s.
Proof. reflexivity. Qed.

Lemma run_gets (f : Workshop -> A) (k : A -> M B) (s : Workshop) :
  bind (gets f) k s = k (f s) s.
Proof. reflexivity. Qed.

Lemma run_modify (f : Workshop -> Workshop) (k : unit -> M B) (s : Workshop) :
  bind (modify f) k s = k tt (f s).
Proof. reflexivity. Qed.

Lemma run_lift (a : A) (k : A -> M B) (s : Workshop) :
  bind (lift (Ok a)) k s = k a s.
Proof. reflexivity. Qed.

Lemma run_randint (a b : Z) (k : Z -> M B) (s : Workshop) :
  bind (randint a b) k s =
  k (draw (random s) 0 a b)
    (with_random (mkRandom (tape (random s)) (S (pos (random s)))) s).
Proof. reflexivity. Qed.

Lemma run_update_led (led v : Z) (k : unit -> M B) (s : Workshop) :
  0 <= led < Z.of_nat (length (led_states s)) ->
  bind (update_led led v) k s = k tt (commanded led v s).
Proof. intros H. apply bind_run, update_led_ok, H. Qed.
End Run.

(** Projections of updated records. *)
Ltac ssimpl :=
  cbn [mcp thermoC random clock detached_tasks init_time led_states
       avg_temp avg_temp_calc avg_count ten_count_switch temp_task_enable
       temp_bounds task_mode LED_task_enable LED_task_interval
       rave_ioloop_counter traffic_wait_counter traffic_loop_counter
       temp_count background_thread_counter LED_ioloop_task
       temp_ioloop_task with_mcp with_thermoC with_random with_clock
       with_detached_tasks with_init_time with_led_states with_avg_temp
       with_avg_temp_calc with_avg_count with_ten_count_switch
       with_temp_task_enable with_temp_bounds with_task_mode
       with_LED_task_enable with_LED_task_interval with_rave_ioloop_counter
       with_traffic_wait_counter with_traffic_loop_counter with_temp_count
       with_background_thread_counter with_LED_ioloop_task
       with_temp_ioloop_task setups outputs temperature tape pos commanded
       fst snd].

Ltac led_range :=
  rewrite ?commanded_length, ?commanded_all_length, ?length_insert;
  cbv beta delta [RED YELLOW GREEN leds_ok] in *;
  try match goal with
      | |- context [draw ?r ?k ?a ?b] =>
          pose proof (draw_range r k a b ltac:(lia))
      end;
  lia.

Ltac mstep :=
  first
    [ rewrite run_assoc | rewrite run_ret | rewrite run_gets
    | rewrite run_modify | rewrite run_lift | rewrite run_randint
    | rewrite run_update_led by (ssimpl; led_range) ].

Ltac mrun := repeat (mstep; ssimpl).

(** ** The fast tick *)

(** In every mode but rave and traffic the fast tick does nothing. *)
Lemma LED_tick_idle (s : Workshop) :
  task_mode s <> "rave" -> task_mode s <> "traffic" ->
  LED_ioloop_callback s = (Ok tt, s).
Proof.
  intros H1 H2. unfold LED_ioloop_callback, bind, gets, ret.
  apply String.eqb_neq in H1, H2. rewrite H1, H2. reflexivity.
Qed.

(** In traffic mode the fast tick is [traffic_next]. *)
Lemma LED_tick_traffic (s : Workshop) :
  task_mode s = "traffic" -> leds_ok s ->
  LED_ioloop_callback s = (Ok tt, traffic_next s).
Proof.
  intros H1 H2. unfold LED_ioloop_callback.
  rewrite run_gets, H1. cbn [String.eqb Ascii.eqb Bool.eqb].
  mrun. rewrite H1. cbn [String.eqb Ascii.eqb Bool.eqb].
  mrun. unfold traffic_next, traffic_actions.
  set (c := traffic_wait_counter s + 1).
  destruct (Z.eqb_spec c 39) as [E39|N39].
  { rewrite E39. reflexivity. }
  destruct (Z.eqb_spec c 2) as [E|N2].
  { mrun. rewrite update_led_ok by (ssimpl; led_range). reflexivity. }
  destruct (Z.eqb_spec c 14) as [E|N14].
  { rewrite update_led_ok by (ssimpl; led_range). reflexivity. }
  destruct (Z.eqb_spec c 22) as [E|N22].
  { mrun. rewrite update_led_ok by (ssimpl; led_range). reflexivity. }
  destruct (Z.eqb_spec c 34) as [E|N34].
  { mrun. rewrite update_led_ok by (ssimpl; led_range). reflexivity. }
  reflexivity.
Qed.

Lemma traffic_next_mode (s : Workshop) :
  task_mode (traffic_next s) = task_mode s.
Proof.
  unfold traffic_next. destruct (_ =? 39); cbn; rewrite commanded_all_frame; reflexivity.
Qed.

Lemma traffic_next_leds_ok (s : Workshop) :
  leds_ok s -> leds_ok (traffic_next s).
Proof.
  unfold traffic_next, leds_ok. intros H.
  destruct (_ =? 39); cbn; rewrite commanded_all_length; exact H.
Qed.

Lemma traffic_next_outputs (s : Workshop) :
  outputs (mcp (traffic_next s)) =
  outputs (mcp s) ++ traffic_actions (traffic_wait_counter s + 1).
Proof.
  unfold traffic_next. destruct (_ =? 39); cbn; rewrite commanded_all_outputs; reflexivity.
Qed.

Lemma traffic_next_counter (s : Workshop) :
  traffic_wait_counter (traffic_next s) =
  if traffic_wait_counter s + 1 =? 39 then 0 else traffic_wait_counter s + 1.
Proof.
  unfold traffic_next. destruct (_ =? 39); cbn; [reflexivity|].
  rewrite commanded_all_frame. reflexivity.
Qed.

Lemma traffic_next_loops (s : Workshop) :
  traffic_loop_counter (traffic_next s) =
  if traffic_wait_counter s + 1 =? 39 then traffic_loop_counter s + 1
  else traffic_loop_counter s.
Proof.
  unfold traffic_next. destruct (_ =? 39); cbn; [reflexivity|].
  rewrite commanded_all_frame. reflexivity.
Qed.

(** [n] ticks that stay below the end of the cycle. *)
Lemma traffic_run (n : nat) : forall s : Workshop,
  task_mode s = "traffic" -> leds_ok s ->
  0 <= traffic_wait_counter s -> traffic_wait_counter s + Z.of_nat n <= 38 ->
  exists s', fast_ticks n s = (Ok tt, s') /\
    task_mode s' = "traffic" /\ leds_ok s' /\
    traffic_wait_counter s' = traffic_wait_counter s + Z.of_nat n /\
    traffic_loop_counter s' = traffic_loop_counter s /\
    outputs (mcp s') =
      outputs (mcp s) ++ traffic_trace (traffic_wait_counter s + 1) n.
Proof.
  induction n as [|n IH]; intros s Hm Hl H0 Hn.
  - exists s. cbn [traffic_trace]. rewrite app_nil_r, Z.add_0_r.
    repeat split; try assumption; reflexivity.
  - assert (Hc : (traffic_wait_counter s + 1 =? 39) = false) by (apply Z.eqb_neq; lia).
    destruct (IH (traffic_next s)) as (s' & Hrun & Hm' & Hl' & Hc' & Hk' & Ho').
    + rewrite traffic_next_mode. exact Hm.
    + apply traffic_next_leds_ok. exact Hl.
    + rewrite traffic_next_counter, Hc. lia.
    + rewrite traffic_next_counter, Hc. lia.
    + exists s'. unfold fast_ticks in *. cbn [repeatM].
      erewrite bind_run by (apply LED_tick_traffic; assumption).
      rewrite traffic_next_counter, Hc in Hc', Ho'.
      rewrite traffic_next_loops, Hc in Hk'.
      rewrite traffic_next_outputs in Ho'.
      repeat split; try assumption; try lia.
      rewrite Ho'. cbn [traffic_trace]. rewrite app_assoc. reflexivity.
Qed.

(** C1. In traffic mode, from phase counter 0, each of the first 38 fast
    ticks adds one to the phase counter and leaves the loop counter alone;
    the calls to the output bank are those of the table, made when the
    counter reaches 2, 14, 22 and 34 and at no other value; the 39th tick
    puts the phase counter back to 0 and adds exactly 1 to the loop
    counter. *)
Theorem traffic_cycle (s : Workshop) :
  task_mode s = "traffic" -> leds_ok s -> traffic_wait_counter s = 0 ->
  (forall n : nat, (n <= 38)%nat ->
     exists s', fast_ticks n s = (Ok tt, s') /\
       traffic_wait_counter s' = Z.of_nat n /\
       traffic_loop_counter s' = traffic_loop_counter s /\
       outputs (mcp s') = outputs (mcp s) ++ traffic_trace 1 n) /\
  (forall c : Z, traffic_actions c =
     if c =? 2 then [(YELLOW, 0); (RED, 1)]
     else if c =? 14 then [(YELLOW, 1)]
     else if c =? 22 then [(RED, 0); (YELLOW, 0); (GREEN, 1)]
     else if c =? 34 then [(GREEN, 0); (YELLOW, 1)]
     else []) /\
  (exists s', fast_ticks 39 s = (Ok tt, s') /\
     traffic_wait_counter s' = 0 /\
     traffic_loop_counter s' = traffic_loop_counter s + 1 /\
     outputs (mcp s') =
       outputs (mcp s) ++
       [(YELLOW, 0); (RED, 1); (YELLOW, 1); (RED, 0); (YELLOW, 0); (GREEN, 1);
        (GREEN, 0); (YELLOW, 1)]).
Proof.
  intros Hm Hl H0. split; [|split].
  - intros n Hn.
    destruct (traffic_run n s Hm Hl) as (s' & Hrun & _ & _ & Hc & Hk & Ho); try lia.
    exists s'. rewrite H0 in Hc, Ho. repeat split; assumption.
  - intros c. reflexivity.
  - destruct (traffic_run 38 s Hm Hl) as (s1 & Hrun & Hm1 & Hl1 & Hc & Hk & Ho); try lia.
    rewrite H0 in Hc, Ho. cbn [Z.add Z.of_nat Pos.of_succ_nat Pos.succ] in Hc.
    exists (traffic_next s1). unfold fast_ticks in *.
    change 39%nat with (38 + 1)%nat.
    rewrite (repeatM_add 38 1 _ s s1 Hrun). cbn [repeatM].
    erewrite bind_run by (apply LED_tick_traffic; assumption).
    rewrite traffic_next_counter, traffic_next_loops, traffic_next_outputs, Hc, Hk, Ho.
    repeat split. rewrite <- app_assoc. reflexivity.
Qed.

Lemma traffic_cycle_witness :
  let s := in_mode "traffic" lab in
  (task_mode s = "traffic" /\ leds_ok s /\ traffic_wait_counter s = 0) /\
  exists s', fast_ticks 39 s = (Ok tt, s') /\
    traffic_wait_counter s' = 0 /\
    traffic_loop_counter s' = traffic_loop_counter s + 1 /\
    outputs (mcp s') =
      outputs (mcp s) ++
      [(YELLOW, 0); (RED, 1); (YELLOW, 1); (RED, 0); (YELLOW, 0); (GREEN, 1);
       (GREEN, 0); (YELLOW, 1)].
Proof.
  intros s.
  assert (H : task_mode s = "traffic" /\ leds_ok s /\ traffic_wait_counter s = 0)
    by (repeat split; reflexivity).
  split; [exact H|].
  destruct H as (Hm & Hl & H0).
  exact (proj2 (proj2 (traffic_cycle s Hm Hl H0))).
Defined.

(** In rave mode the fast tick is [rave_next]. *)
Lemma LED_tick_rave (s : Workshop) :
  task_mode s = "rave" -> leds_ok s ->
  LED_ioloop_callback s = (Ok tt, rave_next s).
Proof.
  intros H1 H2. unfold LED_ioloop_callback.
  rewrite run_gets, H1. cbn [String.eqb Ascii.eqb Bool.eqb].
  unfold for_range, for_range_from.
  mrun. rewrite H1. cbn [String.eqb Ascii.eqb Bool.eqb].
  unfold ret, rave_next, rave_calls, commanded_all. reflexivity.
Qed.

Lemma rave_next_mode (s : Workshop) : task_mode (rave_next s) = task_mode s.
Proof. unfold rave_next. ssimpl. rewrite commanded_all_frame. reflexivity. Qed.

Lemma rave_next_leds_ok (s : Workshop) : leds_ok s -> leds_ok (rave_next s).
Proof.
  unfold rave_next, leds_ok. intros H. ssimpl. rewrite commanded_all_length. exact H.
Qed.

Lemma rave_next_outputs (s : Workshop) :
  outputs (mcp (rave_next s)) = outputs (mcp s) ++ rave_calls (random s).
Proof. unfold rave_next. ssimpl. rewrite commanded_all_outputs. reflexivity. Qed.

Lemma rave_next_counter (s : Workshop) :
  rave_ioloop_counter (rave_next s) = rave_ioloop_counter s + 1.
Proof. reflexivity. Qed.

(** C4. In rave mode, whatever the random draws are, [N] fast ticks add
    exactly [N] to the rave counter (which is 0 in a new object) and make
    exactly [3 * N] calls to the output bank, each with a channel of 0..2
    and a level of 0..1. *)
Theorem rave_ticks_counted (N : nat) : forall s : Workshop,
  task_mode s = "rave" -> leds_ok s ->
  exists (s' : Workshop) (calls : list (Z * Z)),
    fast_ticks N s = (Ok tt, s') /\
    rave_ioloop_counter s' = rave_ioloop_counter s + Z.of_nat N /\
    outputs (mcp s') = outputs (mcp s) ++ calls /\
    length calls = (3 * N)%nat /\
    Forall valid_call calls.
Proof.
  assert (G : forall s : Workshop,
    task_mode s = "rave" -> leds_ok s ->
    exists (s' : Workshop) (calls : list (Z * Z)),
      fast_ticks N s = (Ok tt, s') /\
      rave_ioloop_counter s' = rave_ioloop_counter s + Z.of_nat N /\
      outputs (mcp s') = outputs (mcp s) ++ calls /\
      length calls = (3 * N)%nat /\
      Forall valid_call calls).
  { induction N as [|N IH]; intros s Hm Hl.
    - exists s, []. rewrite app_nil_r, Z.add_0_r. repeat split. constructor.
    - destruct (IH (rave_next s)) as (s' & calls & Hrun & Hc & Ho & Hlen & Hv).
      + rewrite rave_next_mode. exact Hm.
      + apply rave_next_leds_ok. exact Hl.
      + exists s', (rave_calls (random s) ++ calls).
        unfold fast_ticks in *. cbn [repeatM].
        erewrite bind_run by (apply LED_tick_rave; assumption).
        rewrite rave_next_counter in Hc. rewrite rave_next_outputs in Ho.
        split; [exact Hrun|]. split; [lia|]. split; [|split].
        * rewrite Ho, app_assoc. reflexivity.
        * rewrite length_app, Hlen. cbn [rave_calls length]. lia.
        * apply Forall_app. split; [apply rave_calls_valid | exact Hv]. }
  exact G.
Qed.

Lemma rave_ticks_counted_witness :
  let s := in_mode "rave" lab in
  (task_mode s = "rave" /\ leds_ok s /\ rave_ioloop_counter s = 0) /\
  exists (s' : Workshop) (calls : list (Z * Z)),
    fast_ticks 5 s = (Ok tt, s') /\
    rave_ioloop_counter s' = rave_ioloop_counter s + 5 /\
    outputs (mcp s') = outputs (mcp s) ++ calls /\
    length calls = 15%nat /\
    Forall valid_call calls.
Proof.
  intros s.
  assert (H : task_mode s = "rave" /\ leds_ok s /\ rave_ioloop_counter s = 0)
    by (repeat split; reflexivity).
  split; [exact H|].
  destruct H as (Hm & Hl & _).
  exact (rave_ticks_counted 5 s Hm Hl).
Defined.

(** C5 as stated fails: rave is a mode other than thermometer and traffic,
    and its fast tick calls the output bank. *)
Lemma rave_tick_not_silent :
  let s := in_mode "rave" lab in
  task_mode s <> "thermometer" /\ task_mode s <> "traffic" /\
  ~ fast_tick_silent s.
Proof.
  cbv zeta. split; [|split].
  - intros H. vm_compute in H. discriminate H.
  - intros H. vm_compute in H. discriminate H.
  - unfold fast_tick_silent. intros H. vm_compute in H. discriminate H.
Qed.

(** C5, amended. For every mode other than rave and traffic, a fast tick
    changes nothing and makes no call to the output bank (the fast ticks of
    command and thermometer mode are no-ops). *)
Theorem fast_tick_idle (s : Workshop) :
  task_mode s <> "rave" -> task_mode s <> "traffic" ->
  LED_ioloop_callback s = (Ok tt, s) /\ fast_tick_silent s.
Proof.
  intros H1 H2. unfold fast_tick_silent.
  rewrite (LED_tick_idle s H1 H2). split; reflexivity.
Qed.

Lemma fast_tick_idle_witness :
  let s := in_mode "thermometer" lab in
  (task_mode s <> "rave" /\ task_mode s <> "traffic") /\
  LED_ioloop_callback s = (Ok tt, s) /\ fast_tick_silent s.
Proof.
  intros s.
  assert (H : task_mode s <> "rave" /\ task_mode s <> "traffic")
    by (split; intros E; vm_compute in E; discriminate E).
  split; [exact H|].
  exact (fast_tick_idle s (proj1 H) (proj2 H)).
Defined.

(** ** The slow tick *)

Lemma with_avg_temp_same (s : Workshop) : with_avg_temp (avg_temp s) s = s.
Proof. destruct s; reflexivity. Qed.

Lemma sum_loop (buf : list Q) (s : Workshop) :
  for_each buf
    (fun temp => modify (fun s' => with_avg_temp (avg_temp s' + temp)%Q s')) s =
  (Ok tt, with_avg_temp (fold_left Qplus buf (avg_temp s)) s).
Proof.
  revert s. induction buf as [|x buf IH]; intros s.
  - cbn [for_each fold_left]. rewrite with_avg_temp_same. reflexivity.
  - cbn [for_each fold_left]. rewrite run_modify, IH. reflexivity.
Qed.

Lemma run_sum_loop {B : Type} (buf : list Q) (k : unit -> M B) (s : Workshop) :
  bind (for_each buf
          (fun temp => modify (fun s' => with_avg_temp (avg_temp s' + temp)%Q s')))
       k s =
  k tt (with_avg_temp (fold_left Qplus buf (avg_temp s)) s).
Proof. apply bind_run, sum_loop. Qed.

Lemma run_div_avg_temp {B : Type} (d : Q) (k : unit -> M B) (s : Workshop) :
  Qeq_bool d 0 = false ->
  bind (div_avg_temp d) k s = k tt (with_avg_temp (avg_temp s / d)%Q s).
Proof.
  intros H. unfold div_avg_temp, Py.truediv. rewrite run_assoc, run_gets, H.
  reflexivity.
Qed.

Lemma inject_Z_nonzero (z : Z) : z <> 0 -> Qeq_bool (inject_Z z) 0 = false.
Proof.
  intros H. destruct (Qeq_bool (inject_Z z) 0) eqn:E; [|reflexivity].
  apply Qeq_bool_eq in E. unfold Qeq in E. cbn in E. lia.
Qed.

Lemma run_setitem {A B : Type} (l : list A) (i : Z) (x : A)
    (k : list A -> M B) (s : Workshop) :
  0 <= i < Z.of_nat (length l) ->
  bind (lift (Py.setitem l i x)) k s = k (<[Z.to_nat i := x]> l) s.
Proof. intros H. rewrite setitem_in_range by exact H. reflexivity. Qed.

Lemma getitem_0 {A : Type} (x y : A) : Py.getitem [x; y] 0 = Ok x.
Proof. reflexivity. Qed.

Lemma getitem_1 {A : Type} (x y : A) : Py.getitem [x; y] 1 = Ok y.
Proof. reflexivity. Qed.

(** The slow tick is [sampled] followed by [shown]; the bounds and the
    three LED states are looked at in thermometer mode only. *)
Lemma temp_tick (s : Workshop) (lower upper : Q) :
  sampler_ok s ->
  (task_mode s = "thermometer" ->
   leds_ok s /\ temp_bounds s = [lower; upper]) ->
  temp_ioloop_callback s =
  (Ok tt, shown (temperature (thermoC s)) lower upper
            (sampled (temperature (thermoC s)) s)).
Proof.
  intros [Hlen Hc] Hth. unfold temp_ioloop_callback.
  mrun. rewrite run_setitem by lia. mrun. rewrite run_sum_loop. ssimpl.
  set (t := temperature (thermoC s)).
  rewrite run_gets. ssimpl.
  match goal with
  | |- bind ?m _ ?st = _ =>
      assert (Hs : forall (B : Type) (K : unit -> M B),
                bind m K st =
                K tt (with_temp_count (temp_count s)
                        (sampled t s)))
  end.
  { intros B K. unfold sampled, divisor. fold t.
    destruct (ten_count_switch s) eqn:Esw.
    - rewrite run_assoc, run_div_avg_temp by reflexivity. mrun.
      destruct (Z.eqb_spec (avg_count s + 1) 10) as [E|E]; mrun;
        cbn [orb]; f_equal; destruct s; simpl in Esw;
        subst; reflexivity.
    - mrun. destruct (Z.ltb_spec (avg_count s + 1) 10) as [E|E].
      + rewrite run_div_avg_temp by (apply inject_Z_nonzero; lia). ssimpl.
        destruct (Z.eqb_spec (avg_count s + 1) 10) as [E'|E']; [lia|].
        cbn [orb negb]. f_equal. destruct s; simpl in Esw.
        subst. reflexivity.
      + mrun. rewrite run_div_avg_temp by reflexivity. mrun.
        destruct (Z.eqb_spec (avg_count s + 1) 10) as [E'|E']; [|lia].
        cbn [orb negb]. f_equal; try (destruct s; simpl in Esw; subst; reflexivity). }
  rewrite Hs. clear Hs. mrun.
  assert (E : with_temp_count (temp_count s + 1)
                (with_temp_count (temp_count s) (sampled t s)) = sampled t s)
    by reflexivity.
  rewrite E. clear E.
  assert (Hm : task_mode (sampled t s) = task_mode s) by reflexivity.
  unfold shown. rewrite Hm.
  destruct (String.eqb_spec (task_mode s) "thermometer") as [Em|Em];
    [|reflexivity].
  destruct (Hth Em) as [Hl Hb].
  assert (Hl' : leds_ok (sampled t s)) by exact Hl.
  assert (Hb' : temp_bounds (sampled t s) = [lower; upper]) by exact Hb.
  clear Hm. generalize dependent (sampled t s). intros st Hl' Hb'.
  mrun. rewrite Hb', ?getitem_0, ?getitem_1. rewrite run_lift.
  unfold indicator, all_off.
  destruct (Py.lt t lower).
  { rewrite update_led_ok by (ssimpl; led_range). reflexivity. }
  rewrite ?getitem_1, ?getitem_0, run_lift.
  destruct (Py.lt t upper).
  - rewrite run_assoc, run_lift, run_ret. cbn [andb].
    destruct (Py.gt t lower).
    + rewrite update_led_ok by (ssimpl; led_range). reflexivity.
    + rewrite run_lift.
      destruct (Py.gt t upper); [|reflexivity].
      rewrite update_led_ok by (ssimpl; led_range). reflexivity.
  - rewrite run_ret. cbn [andb]. rewrite run_lift.
    destruct (Py.gt t upper); [|reflexivity].
    rewrite update_led_ok by (ssimpl; led_range). reflexivity.
Qed.

Lemma lt_spec (x y : Q) : reflect (x < y)%Q (Py.lt x y).
Proof.
  unfold Py.lt. destruct (Qle_bool y x) eqn:E; cbn [negb]; constructor.
  - apply Qle_bool_iff in E. apply Qle_not_lt. exact E.
  - apply Qnot_le_lt. intros H. apply Qle_bool_iff in H. congruence.
Qed.

Lemma gt_spec (x y : Q) : reflect (y < x)%Q (Py.gt x y).
Proof. apply lt_spec. Qed.

Lemma commanded_all_led_states (acts : list (Z * Z)) (s : Workshop) :
  led_states (commanded_all acts s) =
  fold_left (fun l a => <[Z.to_nat (fst a) := snd a]> l) acts (led_states s).
Proof.
  revert s. induction acts as [|a acts IH]; intros s; [reflexivity|].
  cbn [commanded_all fold_left].
  fold (commanded_all acts (commanded (fst a) (snd a) s)).
  rewrite IH. reflexivity.
Qed.

(** The table of the thermometer, on the comparisons of [indicator]. *)
Lemma indicator_table (t lower upper : Q) :
  (lower <= upper)%Q ->
  ((t < lower)%Q -> indicator t lower upper = [(YELLOW, 1)]) /\
  ((lower < t)%Q /\ (t < upper)%Q -> indicator t lower upper = [(GREEN, 1)]) /\
  ((upper < t)%Q -> indicator t lower upper = [(RED, 1)]) /\
  ((t == lower)%Q \/ (t == upper)%Q -> indicator t lower upper = []).
Proof.
  intros Hle. unfold indicator.
  destruct (lt_spec t lower) as [H1|H1], (lt_spec t upper) as [H2|H2],
    (gt_spec t lower) as [H3|H3], (gt_spec t upper) as [H4|H4];
    cbn [andb]; (split; [|split; [|split]]); intros H;
    try reflexivity; exfalso; lra.
Qed.

Lemma lights_only_shown (lit : option Z) (s st : Workshop) :
  lit = None \/ lit = Some RED \/ lit = Some YELLOW \/ lit = Some GREEN ->
  leds_ok st -> outputs (mcp st) = outputs (mcp s) ->
  lights_only lit s
    (commanded_all
       (all_off ++ match lit with Some led => [(led, 1)] | None => [] end) st).
Proof.
  intros Hlit Hl Ho. unfold lights_only, leds_ok in *.
  rewrite commanded_all_led_states, commanded_all_outputs, Ho.
  destruct (led_states st) as [|a [|b [|c [|d l]]]]; try discriminate Hl.
  destruct Hlit as [-> | [-> | [-> | ->]]]; split; reflexivity.
Qed.

(** C3, amended. In thermometer mode with a lower bound that does not
    exceed the upper bound, a slow tick first forces the three outputs to 0
    and then lights exactly one indicator from the temperature just read:
    YELLOW strictly below the lower bound, GREEN strictly between the
    bounds, RED strictly above the upper bound, and none when the
    temperature equals a bound. *)
Theorem thermometer_indicator (s : Workshop) (lower upper : Q) :
  task_mode s = "thermometer" -> sampler_ok s -> leds_ok s ->
  temp_bounds s = [lower; upper] -> (lower <= upper)%Q ->
  thermometer_table s lower upper.
Proof.
  intros Hm Hs Hl Hb Hle. unfold thermometer_table.
  set (t := temperature (thermoC s)).
  exists (shown t lower upper (sampled t s)).
  split; [apply temp_tick; [exact Hs | intros _; split; assumption]|].
  unfold shown.
  assert (E : task_mode (sampled t s) = "thermometer") by exact Hm.
  rewrite E. cbn [String.eqb Ascii.eqb Bool.eqb].
  destruct (indicator_table t lower upper Hle) as (H1 & H2 & H3 & H4).
  assert (Hl' : leds_ok (sampled t s)) by exact Hl.
  assert (Ho : outputs (mcp (sampled t s)) = outputs (mcp s)) by reflexivity.
  split; [|split; [|split]]; intros H.
  - rewrite (H1 H). apply (lights_only_shown (Some YELLOW)); auto.
  - rewrite (H2 H). apply (lights_only_shown (Some GREEN)); auto.
  - rewrite (H3 H). apply (lights_only_shown (Some RED)); auto.
  - rewrite (H4 H). apply (lights_only_shown None); auto.
Qed.

Lemma thermometer_indicator_witness :
  let s := in_mode "thermometer" lab in
  (task_mode s = "thermometer" /\ sampler_ok s /\ leds_ok s /\
   temp_bounds s = [43 # 2; 22]%Q /\ (43 # 2 <= 22)%Q) /\
  thermometer_table s (43 # 2) 22.
Proof.
  intros s.
  assert (H : task_mode s = "thermometer" /\ sampler_ok s /\ leds_ok s /\
              temp_bounds s = [43 # 2; 22]%Q /\ (43 # 2 <= 22)%Q).
  { repeat split; try reflexivity; vm_compute; discriminate. }
  split; [exact H|].
  destruct H as (Hm & Hs & Hl & Hb & Hle).
  exact (thermometer_indicator s (43 # 2) 22 Hm Hs Hl Hb Hle).
Defined.

(** C3 as stated fails when the bounds are the wrong way round: with 22
    below and 21 above, 21.5 is strictly above the upper bound and it is
    YELLOW that is lit, not RED. *)
Lemma thermometer_inverted_bounds :
  task_mode inverted = "thermometer" /\
  temp_bounds inverted = [22; 21]%Q /\
  led_states (snd (temp_ioloop_callback inverted)) = [0; 1; 0] /\
  ~ thermometer_table inverted 22 21.
Proof.
  split; [reflexivity|]. split; [reflexivity|]. split; [reflexivity|].
  intros (s' & Hrun & _ & _ & Hred & _).
  assert (Hs' : s' = snd (temp_ioloop_callback inverted))
    by (rewrite Hrun; reflexivity).
  assert (Habove : (21 < temperature (thermoC inverted))%Q) by reflexivity.
  destruct (Hred Habove) as [Hleds _].
  rewrite Hs' in Hleds. vm_compute in Hleds. discriminate Hleds.
Qed.

(** ** Modes that are not known *)

Lemma sampled_in_mode (mode : string) (t : Q) (s : Workshop) :
  sampled t (in_mode mode s) = in_mode mode (sampled t s).
Proof. reflexivity. Qed.

(** C8. A mode string outside rave, traffic and thermometer is stored as
    it is, without error; in that mode the fast tick changes nothing (no
    call to the output bank, no counter) and the slow tick makes no call to
    the output bank, and both end in the state they end in from command
    mode, the mode string apart. *)
Theorem unknown_mode_like_command (mode : string) (s : Workshop) :
  mode <> "rave" -> mode <> "traffic" -> mode <> "thermometer" ->
  sampler_ok s ->
  exists s1 s2 : Workshop,
    set_task_mode mode s = (Ok tt, s1) /\ task_mode s1 = mode /\
    LED_ioloop_callback s1 = (Ok tt, s1) /\
    LED_ioloop_callback (in_mode "command" s) = (Ok tt, in_mode "command" s) /\
    temp_ioloop_callback s1 = (Ok tt, s2) /\
    outputs (mcp s2) = outputs (mcp s1) /\
    led_states s2 = led_states s1 /\
    temp_ioloop_callback (in_mode "command" s) = (Ok tt, in_mode "command" s2).
Proof.
  intros Hr Ht Hth Hs.
  set (t := temperature (thermoC s)).
  exists (in_mode mode s), (sampled t (in_mode mode s)).
  assert (Hidle : forall m : string, m <> "thermometer" ->
            temp_ioloop_callback (in_mode m s) = (Ok tt, sampled t (in_mode m s))).
  { intros m Hm.
    rewrite (temp_tick (in_mode m s) 0 0); [|exact Hs|intros E; contradiction].
    unfold shown. rewrite sampled_in_mode.
    destruct (String.eqb_spec (task_mode (in_mode m (sampled (temperature (thermoC (in_mode m s))) s))) "thermometer") as [E|E];
      [contradiction|reflexivity]. }
  split; [reflexivity|]. split; [reflexivity|].
  split; [apply LED_tick_idle; assumption|].
  split; [apply LED_tick_idle; discriminate|].
  split; [apply Hidle; assumption|].
  split; [reflexivity|]. split; [reflexivity|].
  rewrite Hidle by discriminate. reflexivity.
Qed.

Lemma unknown_mode_like_command_witness :
  (("disco" : string) <> "rave" /\ ("disco" : string) <> "traffic" /\
   ("disco" : string) <> "thermometer" /\ sampler_ok lab) /\
  exists s1 s2 : Workshop,
    set_task_mode "disco" lab = (Ok tt, s1) /\ task_mode s1 = "disco" /\
    LED_ioloop_callback s1 = (Ok tt, s1) /\
    LED_ioloop_callback (in_mode "command" lab) = (Ok tt, in_mode "command" lab) /\
    temp_ioloop_callback s1 = (Ok tt, s2) /\
    outputs (mcp s2) = outputs (mcp s1) /\
    led_states s2 = led_states s1 /\
    temp_ioloop_callback (in_mode "command" lab) = (Ok tt, in_mode "command" s2).
Proof.
  assert (H : ("disco" : string) <> "rave" /\ ("disco" : string) <> "traffic" /\
              ("disco" : string) <> "thermometer" /\ sampler_ok lab).
  { repeat split; try discriminate; vm_compute; discriminate. }
  split; [exact H|].
  destruct H as (Hr & Ht & Hth & Hs).
  exact (unknown_mode_like_command "disco" lab Hr Ht Hth Hs).
Defined.

(** ** Sums *)

Lemma Qsum_cons (x : Q) (l : list Q) : Qsum (x :: l) = (x + Qsum l)%Q.
Proof. reflexivity. Qed.


Lemma Qsum_app (l1 l2 : list Q) : (Qsum (l1 ++ l2) == Qsum l1 + Qsum l2)%Q.
Proof.
  induction l1 as [|x l1 IH]; cbn [app].
  - unfold Qsum at 2. cbn [fold_right]. ring.
  - rewrite !Qsum_cons, IH. ring.
Qed.


Lemma Qsum_insert (l : list Q) (i : nat) (x y : Q) :
  l !! i = Some y -> (Qsum (<[i := x]> l) == Qsum l - y + x)%Q.
Proof.
  revert i. induction l as [|z l IH]; intros [|i] H; try discriminate H.
  - cbn in H. injection H as ->.
    change (<[0%nat:=x]> (y :: l)) with (x :: l). rewrite !Qsum_cons. ring.
  - cbn in H. change (<[S i:=x]> (z :: l)) with (z :: <[i:=x]> l).
    rewrite !Qsum_cons, (IH i H). ring.
Qed.


(** ** The slow tick on a well-formed object *)

Lemma indicator_pins (t lower upper : Q) :
  Forall (fun a : Z * Z => 0 <= fst a <= 2) (all_off ++ indicator t lower upper).
Proof.
  unfold indicator, all_off.
  destruct (Py.lt t lower), (Py.lt t upper && Py.gt t lower), (Py.gt t upper);
    cbn [app]; repeat (apply Forall_cons_2; [cbn [fst]; cbv delta [RED YELLOW GREEN]; lia|]);
    apply Forall_nil_2.
Qed.

Lemma bounds_pair (s : Workshop) :
  bounds_ok s -> exists lower upper : Q, temp_bounds s = [lower; upper].
Proof.
  unfold bounds_ok. destruct (temp_bounds s) as [|a [|b [|c l]]]; try discriminate.
  intros _. exists a, b. reflexivity.
Qed.

(** What one slow tick does to a well-formed object. *)
Lemma slow_tick_step (t : Q) (s : Workshop) :
  wf s ->
  exists (s' : Workshop) (acts : list (Z * Z)),
    slow_tick t s = (Ok tt, s') /\
    led_effect acts s s' /\
    avg_temp_calc s' = <[Z.to_nat (avg_count s) := t]> (avg_temp_calc s) /\
    avg_count s' = (if avg_count s + 1 =? 10 then 0 else avg_count s + 1) /\
    ten_count_switch s' = ten_count_switch s || negb (avg_count s + 1 <? 10) /\
    avg_temp s' =
      (fold_left Qplus (avg_temp_calc s') 0 /
       inject_Z (divisor (ten_count_switch s) (avg_count s + 1)))%Q /\
    temp_count s' = temp_count s + 1 /\
    task_mode s' = task_mode s /\
    temp_bounds s' = temp_bounds s.
Proof.
  intros (Hl & Hs & Hb). destruct (bounds_pair s Hb) as (lower & upper & Hlu).
  unfold slow_tick, sense. rewrite run_modify.
  set (s1 := with_thermoC (mkMax t) s).
  rewrite (temp_tick s1 lower upper); [|exact Hs|intros _; split; assumption].
  change (temperature (thermoC s1)) with t.
  unfold shown. change (task_mode (sampled t s1)) with (task_mode s).
  destruct (task_mode s =? "thermometer")%string.
  - exists (commanded_all (all_off ++ indicator t lower upper) (sampled t s1)),
      (all_off ++ indicator t lower upper).
    split; [reflexivity|]. split.
    { split; [apply indicator_pins|]. split.
      - rewrite commanded_all_led_states. reflexivity.
      - rewrite commanded_all_outputs. reflexivity. }
    rewrite commanded_all_frame. repeat split.
  - exists (sampled t s1), []. split; [reflexivity|]. split.
    { split; [apply Forall_nil_2|]. split; [reflexivity|]. cbn. rewrite app_nil_r. reflexivity. }
    repeat split.
Qed.

(** ** The window of the sampler *)



Lemma history_length (ts : list Q) :
  length (history ts) = (10 + length ts)%nat.
Proof. unfold history. rewrite length_app, length_replicate. reflexivity. Qed.

Lemma history_snoc (ts : list Q) (t : Q) :
  history (ts ++ [t]) = history ts ++ [t].
Proof. unfold history. apply app_assoc. Qed.

Lemma slot_source_cursor (k : nat) : slot_source k (k mod 10) = k.
Proof. unfold slot_source. lia. Qed.

Lemma slot_source_written (k : nat) :
  slot_source (S k) (k mod 10) = (10 + k)%nat.
Proof. unfold slot_source. lia. Qed.

Lemma slot_source_kept (k j : nat) :
  (j < 10)%nat -> j <> (k mod 10)%nat ->
  slot_source (S k) j = slot_source k j /\ (slot_source k j < 10 + k)%nat.
Proof. unfold slot_source. lia. Qed.

Lemma window_fresh (s : Workshop) : fresh_sampler s -> window_inv [] s.
Proof.
  intros (Hbuf & Hc & Hsw). unfold window_inv. rewrite Hbuf, Hc, Hsw.
  repeat split.
  intros j Hj. unfold slot_source, history. cbn [length].
  rewrite app_nil_r. f_equal. lia.
Qed.

Lemma window_step (ts : list Q) (t : Q) (s s' : Workshop) :
  window_inv ts s ->
  avg_temp_calc s' = <[Z.to_nat (avg_count s) := t]> (avg_temp_calc s) ->
  avg_count s' = (if avg_count s + 1 =? 10 then 0 else avg_count s + 1) ->
  ten_count_switch s' = ten_count_switch s || negb (avg_count s + 1 <? 10) ->
  window_inv (ts ++ [t]) s'.
Proof.
  intros (Hlen & Hc & Hsw & Hslots & Hsum) Hbuf' Hc' Hsw'.
  set (k := length ts) in *.
  assert (Hk : length (ts ++ [t]) = S k) by (rewrite length_app; cbn; lia).
  rewrite Hc, Nat2Z.id in Hbuf'. rewrite Hc in Hc', Hsw'.
  unfold window_inv. rewrite Hk, Hbuf', Hc', Hsw', Hsw.
  split; [rewrite length_insert; exact Hlen|].
  split.
  { destruct (Z.eqb_spec (Z.of_nat (k mod 10) + 1) 10); lia. }
  split.
  { destruct (Nat.leb_spec 10 (S k)), (Nat.leb_spec 10 k),
      (Z.ltb_spec (Z.of_nat (k mod 10) + 1) 10); cbn; try reflexivity; lia. }
  split.
  { intros j Hj. rewrite history_snoc.
    destruct (Nat.eq_dec j (k mod 10)%nat) as [->|Hne].
    - rewrite list_lookup_insert_eq by lia.
      rewrite slot_source_written.
      replace (10 + k)%nat with (length (history ts))
        by (rewrite history_length; reflexivity).
      symmetry. apply list_lookup_middle. reflexivity.
    - rewrite list_lookup_insert_ne by congruence.
      destruct (slot_source_kept k j Hj Hne) as [-> Hlt].
      rewrite lookup_app_l by (rewrite history_length; exact Hlt).
      apply Hslots. exact Hj. }
  assert (Hcur : avg_temp_calc s !! (k mod 10)%nat = history ts !! k).
  { rewrite Hslots by lia. rewrite slot_source_cursor. reflexivity. }
  destruct (lookup_lt_is_Some_2 (history ts) k) as [y Hy];
    [rewrite history_length; lia|].
  rewrite Hy in Hcur.
  rewrite (Qsum_insert _ _ t y Hcur), Hsum.
  rewrite history_snoc.
  rewrite (drop_S _ _ _ Hy).
  rewrite drop_app_le by (rewrite history_length; lia).
  rewrite Qsum_app, Qsum_cons. change (Qsum [t]) with (t + 0)%Q. ring.
Qed.



Lemma divisor_count (k : nat) :
  divisor (10 <=? k)%nat (Z.of_nat (k mod 10) + 1) = Z.of_nat (Nat.min (S k) 10).
Proof.
  unfold divisor. destruct (Nat.leb_spec 10 k); [lia|].
  destruct (Z.ltb_spec (Z.of_nat (k mod 10) + 1) 10); lia.
Qed.

(** The sampler after the samples [ts], fed to an object with a fresh
    sampler. *)
Lemma slow_ticks_window (s0 : Workshop) (ts : list Q) :
  fresh_sampler s0 -> leds_ok s0 -> bounds_ok s0 ->
  exists s : Workshop,
    slow_ticks ts s0 = (Ok tt, s) /\ wf s /\ window_inv ts s /\
    (ts <> [] ->
     avg_temp s =
       (fold_left Qplus (avg_temp_calc s) 0 /
        inject_Z (Z.of_nat (Nat.min (length ts) 10)))%Q).
Proof.
  intros Hf Hl Hb. induction ts as [|t ts IH] using rev_ind.
  - exists s0. split; [reflexivity|]. split.
    { destruct Hf as (Hbuf & Hc & _). repeat split; try assumption.
      - rewrite Hbuf. reflexivity.
      - lia.
      - lia. }
    split; [apply window_fresh; exact Hf|]. intros H. contradiction.
  - destruct IH as (s & Hrun & Hwf & Hw & _).
    destruct (slow_tick_step t s Hwf)
      as (s' & acts & Ht & Heff & Hbuf & Hc & Hsw & Havg & _ & _ & Hbounds).
    exists s'. unfold slow_ticks in *.
    rewrite (for_each_app _ _ _ _ _ Hrun). cbn [for_each].
    rewrite (bind_run _ _ _ _ _ Ht).
    pose proof (window_step ts t s s' Hw Hbuf Hc Hsw) as Hw'.
    split; [reflexivity|]. split.
    { destruct Hwf as (Hleds & _ & Hbnd). destruct Hw' as (Hlen' & Hc'' & _).
      destruct Heff as (Hpins & Hls & _).
      repeat split.
      - unfold leds_ok in *. rewrite Hls. clear - Hleds.
        revert Hleds. generalize (led_states s). induction acts as [|a acts IHa];
          intros l Hlen; cbn [fold_left]; [exact Hlen|].
        apply IHa. rewrite length_insert. exact Hlen.
      - exact Hlen'.
      - lia.
      - rewrite Hc''. lia.
      - unfold bounds_ok in *. rewrite Hbounds. exact Hbnd. }
    split; [exact Hw'|]. intros _.
    rewrite Havg. destruct Hw as (_ & Hcs & Hsws & _).
    rewrite Hcs, Hsws, divisor_count, length_app. cbn [length].
    replace (length ts + 1)%nat with (S (length ts)) by lia. reflexivity.
Qed.




(** ** Every operation keeps the object well formed and mirrored *)

Lemma last_level_snoc (calls : list (Z * Z)) (c v i : Z) :
  last_level (calls ++ [(c, v)]) i =
  if c =? i then Some v else last_level calls i.
Proof.
  induction calls as [|[c' v'] calls IH]; cbn [app last_level].
  - destruct (c =? i); reflexivity.
  - rewrite IH. destruct (c =? i); reflexivity.
Qed.

(** [led_states] and the calls seen by the bank agree on the three
    channels. *)
Lemma mirror_step (l : list Z) (calls : list (Z * Z)) (led v : Z) :
  0 <= led <= 2 ->
  (forall i : Z, 0 <= i <= 2 ->
     l !! Z.to_nat i = last_level calls i /\ is_Some (l !! Z.to_nat i)) ->
  forall i : Z, 0 <= i <= 2 ->
    <[Z.to_nat led := v]> l !! Z.to_nat i = last_level (calls ++ [(led, v)]) i /\
    is_Some (<[Z.to_nat led := v]> l !! Z.to_nat i).
Proof.
  intros Hled H i Hi. rewrite last_level_snoc.
  destruct (H led Hled) as [_ Hsome]. apply lookup_lt_is_Some in Hsome.
  destruct (Z.eqb_spec led i) as [->|Hne].
  - rewrite list_lookup_insert_eq by exact Hsome. split; [reflexivity|eauto].
  - rewrite list_lookup_insert_ne by lia. apply H. exact Hi.
Qed.

Lemma mirrored_effect (acts : list (Z * Z)) (s s' : Workshop) :
  led_effect acts s s' -> mirrored s -> mirrored s'.
Proof.
  intros (Hpins & Hl & Ho). unfold mirrored. rewrite Hl, Ho. clear Hl Ho.
  generalize (led_states s) (outputs (mcp s)).
  induction acts as [|[led v] acts IH]; intros l calls H.
  - cbn [fold_left]. rewrite app_nil_r. exact H.
  - apply Forall_cons in Hpins. destruct Hpins as [Hled Hpins].
    cbn [fold_left fst snd]. replace (calls ++ (led, v) :: acts)
      with ((calls ++ [(led, v)]) ++ acts) by (rewrite <- app_assoc; reflexivity).
    apply IH; [exact Hpins|]. apply mirror_step; [exact Hled|exact H].
Qed.

Lemma leds_ok_effect (acts : list (Z * Z)) (s s' : Workshop) :
  led_effect acts s s' -> leds_ok s -> leds_ok s'.
Proof.
  intros (_ & Hl & _). unfold leds_ok. rewrite Hl. clear.
  generalize (led_states s). induction acts as [|a acts IH]; intros l H;
    cbn [fold_left]; [exact H|].
  apply IH. rewrite length_insert. exact H.
Qed.

Lemma led_effect_none (s s' : Workshop) :
  led_states s' = led_states s -> outputs (mcp s') = outputs (mcp s) ->
  led_effect [] s s'.
Proof.
  intros Hl Ho. split; [apply Forall_nil_2|]. split; [exact Hl|].
  rewrite app_nil_r. exact Ho.
Qed.

Lemma led_effect_commanded_all (acts : list (Z * Z)) (s s0 : Workshop) :
  Forall (fun a => 0 <= fst a <= 2) acts ->
  led_states s0 = led_states s -> outputs (mcp s0) = outputs (mcp s) ->
  led_effect acts s (commanded_all acts s0).
Proof.
  intros Hpins Hl Ho. split; [exact Hpins|].
  rewrite commanded_all_led_states, commanded_all_outputs, Hl, Ho.
  split; reflexivity.
Qed.

Lemma traffic_pins (c : Z) :
  Forall (fun a : Z * Z => 0 <= fst a <= 2) (traffic_actions c).
Proof.
  unfold traffic_actions.
  destruct (c =? 2), (c =? 14), (c =? 22), (c =? 34);
    repeat (apply Forall_cons_2; [cbn [fst]; cbv delta [RED YELLOW GREEN]; lia|]);
    apply Forall_nil_2.
Qed.

Lemma rave_pins (r : Random) :
  Forall (fun a : Z * Z => 0 <= fst a <= 2) (rave_calls r).
Proof.
  eapply Forall_impl; [apply rave_calls_valid|]. intros a [H _]. exact H.
Qed.

(** What one operation does to a well-formed object. *)
Lemma run_op_effect (o : op) (s : Workshop) :
  wf s ->
  exists (s' : Workshop) (acts : list (Z * Z)),
    run_op o s = (Ok tt, s') /\ led_effect acts s s' /\
    sampler_ok s' /\ bounds_ok s'.
Proof.
  intros Hwf. pose proof Hwf as (Hl & Hs & Hb). destruct o as [|t|c v|m|q|u q].
  - (* fast tick *)
    cbn [run_op].
    destruct (String.eqb_spec (task_mode s) "rave") as [Er|Er];
      [|destruct (String.eqb_spec (task_mode s) "traffic") as [Et|Et]].
    + exists (rave_next s), (rave_calls (random s)).
      split; [apply LED_tick_rave; assumption|]. split.
      * unfold rave_next. ssimpl.
        apply led_effect_commanded_all; [apply rave_pins|reflexivity|reflexivity].
      * unfold rave_next. ssimpl. rewrite commanded_all_frame. split; assumption.
    + exists (traffic_next s), (traffic_actions (traffic_wait_counter s + 1)).
      split; [apply LED_tick_traffic; assumption|]. split.
      * split; [apply traffic_pins|]. split.
        -- unfold traffic_next. destruct (_ =? 39); ssimpl;
             rewrite commanded_all_led_states; reflexivity.
        -- apply traffic_next_outputs.
      * unfold traffic_next. destruct (_ =? 39); ssimpl;
          rewrite commanded_all_frame; split; assumption.
    + exists s, []. split; [apply LED_tick_idle; assumption|].
      split; [apply led_effect_none; reflexivity|]. split; assumption.
  - (* slow tick *)
    destruct (slow_tick_step t s Hwf)
      as (s' & acts & Ht & Heff & Hbuf & Hc & _ & _ & _ & _ & Hbounds).
    exists s', acts. split; [exact Ht|]. split; [exact Heff|]. split.
    + destruct Hs as [Hlen Hcur]. split.
      * rewrite Hbuf, length_insert. exact Hlen.
      * rewrite Hc. destruct (Z.eqb_spec (avg_count s + 1) 10); lia.
    + unfold bounds_ok in *. rewrite Hbounds. exact Hb.
  - (* a LED written *)
    exists (commanded (pin c) v s), [(pin c, v)]. cbn [run_op].
    assert (Hpin : 0 <= pin c <= 2) by (destruct c; cbv; intuition discriminate).
    split; [apply set_led_state_ok; unfold leds_ok in Hl; lia|]. split.
    + apply (led_effect_commanded_all [(pin c, v)] s s);
        [apply Forall_cons_2; [exact Hpin|apply Forall_nil_2]|reflexivity|reflexivity].
    + split; assumption.
  - (* the mode written *)
    exists (with_task_mode m s), []. split; [reflexivity|].
    split; [apply led_effect_none; reflexivity|]. split; assumption.
  - (* the interval written *)
    exists (with_LED_task_interval q s), []. split; [reflexivity|].
    split; [apply led_effect_none; reflexivity|]. split; assumption.
  - (* a bound written *)
    set (i := if u then 1 else 0 : Z).
    exists (with_temp_bounds (<[Z.to_nat i := q]> (temp_bounds s)) s), [].
    cbn [run_op]. fold i. split.
    + unfold set_temp_bounds. rewrite run_gets.
      rewrite run_setitem by (unfold bounds_ok in Hb; destruct u; cbv delta [i]; lia).
      reflexivity.
    + split; [apply led_effect_none; reflexivity|]. split; [assumption|].
      unfold bounds_ok in *. ssimpl. rewrite length_insert. exact Hb.
Qed.

Lemma run_ops_inv (ops : list op) : forall s : Workshop,
  wf s -> mirrored s ->
  exists s' : Workshop, run_ops ops s = (Ok tt, s') /\ wf s' /\ mirrored s'.
Proof.
  induction ops as [|o ops IH]; intros s Hwf Hm.
  - exists s. split; [reflexivity|]. split; assumption.
  - destruct (run_op_effect o s Hwf) as (s1 & acts & Hrun & Heff & Hs1 & Hb1).
    destruct (IH s1) as (s' & Hrun' & Hwf' & Hm').
    + split; [|split; assumption].
      apply (leds_ok_effect acts s s1 Heff). apply Hwf.
    + apply (mirrored_effect acts s s1 Heff Hm).
    + exists s'. unfold run_ops in *. cbn [for_each].
      rewrite (bind_run _ _ _ _ _ Hrun). auto.
Qed.

(** A new object is well formed and mirrored, whatever the bank has seen
    before. *)
Lemma Workshop_new_inv (bank : MCP23008) (sensor : Max31856) (rnd : Random)
    (now : Q) (e1 : bool) (interval : Q) (e2 : bool) :
  let s := Workshop_new bank sensor rnd now e1 interval e2 in
  wf s /\ mirrored s /\ fresh_sampler s.
Proof.
  intros s.
  assert (Hl : led_states s = [0; 0; 0]) by (destruct e1, e2; reflexivity).
  assert (Ho : outputs (mcp s) = ((outputs bank ++ [(0, 0)]) ++ [(1, 0)]) ++ [(2, 0)])
    by (destruct e1, e2; reflexivity).
  assert (Hf : fresh_sampler s) by (destruct e1, e2; repeat split).
  assert (Hb : temp_bounds s = [43 # 2; 22]%Q) by (destruct e1, e2; reflexivity).
  split; [|split; [|exact Hf]].
  - destruct Hf as (Hbuf & Hc & _). unfold wf, leds_ok, sampler_ok, bounds_ok.
    rewrite Hl, Hbuf, Hc, Hb. repeat split; lia.
  - unfold mirrored. rewrite Hl, Ho. intros i Hi.
    rewrite !last_level_snoc.
    assert (Hcases : i = 0 \/ i = 1 \/ i = 2) by lia.
    destruct Hcases as [-> | [-> | ->]]; split; cbn; eauto.
Qed.

(** C9. From a new object, after every sequence of operations (LED
    parameters written, fast ticks, slow ticks, and the other writes), each
    of the three entries of [led_states] is the level most recently
    commanded to the output bank on its channel. *)
Theorem led_states_mirror_bank (bank : MCP23008) (sensor : Max31856)
    (rnd : Random) (now : Q) (e1 : bool) (interval : Q) (e2 : bool)
    (ops : list op) :
  exists s : Workshop,
    run_ops ops (Workshop_new bank sensor rnd now e1 interval e2) = (Ok tt, s) /\
    forall i : Z, 0 <= i <= 2 ->
      exists level : Z,
        led_states s !! Z.to_nat i = Some level /\
        last_level (outputs (mcp s)) i = Some level.
Proof.
  destruct (Workshop_new_inv bank sensor rnd now e1 interval e2) as (Hwf & Hm & _).
  destruct (run_ops_inv ops _ Hwf Hm) as (s & Hrun & _ & Hm').
  exists s. split; [exact Hrun|]. intros i Hi.
  destruct (Hm' i Hi) as [Heq [level Hlevel]].
  exists level. split; [exact Hlevel|]. rewrite <- Heq. exact Hlevel.
Qed.

Lemma divisor_positive (switch : bool) (count : Z) :
  0 <= count <= 9 -> 0 < divisor switch (count + 1) <= 10.
Proof.
  intros H. unfold divisor. destruct switch; [lia|].
  destruct (Z.ltb_spec (count + 1) 10); lia.
Qed.

(** C10. From a new object, after every sequence of operations, slow ticks
    among them, the write cursor is in 0..9 and is a subscript of the
    10-element buffer, and the divisor of the next average is strictly
    positive; the next slow tick then raises nothing: it writes the slot at
    the cursor and divides the sum of the buffer by that divisor. *)
Theorem sampler_never_fails (bank : MCP23008) (sensor : Max31856)
    (rnd : Random) (now : Q) (e1 : bool) (interval : Q) (e2 : bool)
    (ops : list op) (t : Q) :
  exists s s' : Workshop,
    run_ops ops (Workshop_new bank sensor rnd now e1 interval e2) = (Ok tt, s) /\
    0 <= avg_count s <= 9 /\
    length (avg_temp_calc s) = 10%nat /\
    Py.index (length (avg_temp_calc s)) (avg_count s) =
      Some (Z.to_nat (avg_count s)) /\
    0 < divisor (ten_count_switch s) (avg_count s + 1) /\
    slow_tick t s = (Ok tt, s') /\
    avg_temp_calc s' = <[Z.to_nat (avg_count s) := t]> (avg_temp_calc s) /\
    avg_temp s' =
      (fold_left Qplus (avg_temp_calc s') 0 /
       inject_Z (divisor (ten_count_switch s) (avg_count s + 1)))%Q.
Proof.
  destruct (Workshop_new_inv bank sensor rnd now e1 interval e2) as (Hwf & Hm & _).
  destruct (run_ops_inv ops _ Hwf Hm) as (s & Hrun & Hwf' & _).
  destruct (slow_tick_step t s Hwf') as (s' & acts & Ht & _ & Hbuf & _ & _ & Havg & _).
  destruct Hwf' as (_ & [Hlen Hc] & _).
  exists s, s'. split; [exact Hrun|]. split; [exact Hc|]. split; [exact Hlen|].
  split; [apply index_in_range; lia|].
  split; [apply divisor_positive; exact Hc|].
  split; [exact Ht|]. split; [exact Hbuf|exact Havg].
Qed.

(** ** The parameter tree *)

Lemma get_missing (t : tree) (path : list string) (s : Workshop) :
  resolve t path = None ->
  Workshop_get t path s = (Raise (TreeError (NotFound path)), s).
Proof.
  intros H. unfold Workshop_get, ParameterTree.get. rewrite H. reflexivity.
Qed.

Lemma set_missing (t : tree) (path : list string) (d : data) (s : Workshop) :
  resolve t path = None ->
  Workshop_set t path d s = (Raise (WorkshopError (NotFound path)), s).
Proof.
  intros H. unfold Workshop_set, ParameterTree.set. rewrite H. reflexivity.
Qed.

Lemma set_read_only (t : tree) (path : list string) (k : kind)
    (getter : Workshop -> denote k) (sl : slot k) (d : data) (s : Workshop) :
  resolve t path = Some (Leaf k getter sl) -> setter_of sl = None ->
  Workshop_set t path d s = (Raise (WorkshopError (ReadOnly path)), s).
Proof.
  intros H Hs. unfold Workshop_set, ParameterTree.set. rewrite H.
  destruct d; cbn [merge]; rewrite Hs; reflexivity.
Qed.

(** C7. [get] on a path that is not in the tree fails with the not-found
    error, and [set] on a path whose leaf has no setter fails with the
    read-only error, wrapped in a [WorkshopError]; the same entry point
    reports a missing path with the not-found error, so the two are told
    apart.  Each is the result of the one call, which leaves the object as
    it was: no setter has run and nothing is tried again. *)
Theorem tree_errors (t : tree) (missing readonly : list string) (k : kind)
    (getter : Workshop -> denote k) (sl : slot k) (d : data) (s : Workshop) :
  resolve t missing = None ->
  resolve t readonly = Some (Leaf k getter sl) -> setter_of sl = None ->
  Workshop_get t missing s = (Raise (TreeError (NotFound missing)), s) /\
  Workshop_set t readonly d s = (Raise (WorkshopError (ReadOnly readonly)), s) /\
  Workshop_set t missing d s = (Raise (WorkshopError (NotFound missing)), s) /\
  WorkshopError (ReadOnly readonly) <> WorkshopError (NotFound readonly).
Proof.
  intros Hm Hr Hs. split; [apply get_missing; exact Hm|].
  split; [eapply set_read_only; eassumption|].
  split; [apply set_missing; exact Hm|]. discriminate.
Qed.

Lemma tree_errors_witness :
  let t := param_tree "1.0" "6.0" true in
  (resolve t ["leds"; "blue"] = None /\
   resolve t ["LED_task"; "rave_count"] =
     Some (Leaf KInt rave_ioloop_counter NoSetter) /\
   setter_of (@NoSetter KInt) = None) /\
  Workshop_get t ["leds"; "blue"] lab =
    (Raise (TreeError (NotFound ["leds"; "blue"])), lab) /\
  Workshop_set t ["LED_task"; "rave_count"] (Val (VInt 7)) lab =
    (Raise (WorkshopError (ReadOnly ["LED_task"; "rave_count"])), lab) /\
  Workshop_set t ["leds"; "blue"] (Val (VInt 7)) lab =
    (Raise (WorkshopError (NotFound ["leds"; "blue"])), lab) /\
  WorkshopError (ReadOnly ["LED_task"; "rave_count"]) <>
    WorkshopError (NotFound ["LED_task"; "rave_count"]).
Proof.
  intros t.
  assert (H : resolve t ["leds"; "blue"] = None /\
              resolve t ["LED_task"; "rave_count"] =
                Some (Leaf KInt rave_ioloop_counter NoSetter) /\
              setter_of (@NoSetter KInt) = None)
    by (repeat split; reflexivity).
  split; [exact H|].
  destruct H as (Hm & Hr & Hs).
  exact (tree_errors t ["leds"; "blue"] ["LED_task"; "rave_count"] KInt
           rave_ioloop_counter NoSetter (Val (VInt 7)) lab Hm Hr Hs).
Defined.

(** The leaves of the Workshop's tree that cannot be written. *)
Lemma read_only_leaves (v1 v2 : string) (b : bool) (d : data) (s : Workshop) :
  Forall (fun path =>
            Workshop_set (param_tree v1 v2 b) path d s =
            (Raise (WorkshopError (ReadOnly path)), s))
    [["LED_task"; "rave_count"]; ["LED_task"; "traffic_count"];
     ["LED_task"; "enable"]; ["server_uptime"];
     ["temperature"; "temperature"]; ["temperature"; "rolling_avg"];
     ["temperature"; "temps_counted"]].
Proof.
  repeat (apply Forall_cons_2;
          [eapply set_read_only; reflexivity|]).
  apply Forall_nil_2.
Qed.

(** A write through the tree reaches the setter of a leaf that has one. *)
Lemma write_led_through_tree (v1 v2 : string) (b : bool) (c : colour) (v : Z)
    (s : Workshop) :
  leds_ok s ->
  Workshop_set (param_tree v1 v2 b)
    ["leds"] (Dict [(match c with Red => "red" | Yellow => "yellow"
                              | Green => "green" end, Val (VInt v))]) s =
  run_op (WriteLed c v) s.
Proof.
  intros Hl. unfold leds_ok in Hl. cbn [run_op].
  assert (Hpin : 0 <= pin c <= 2) by (destruct c; cbv; intuition discriminate).
  assert (Hset : forall K : unit -> M unit,
            bind (set_led_state (pin c) v) K s = K tt (commanded (pin c) v s)).
  { intros K. apply bind_run, set_led_state_ok. lia. }
  rewrite set_led_state_ok by lia.
  destruct c; unfold Workshop_set, ParameterTree.set;
    cbn [resolve param_tree ParameterTree.lookup String.eqb Ascii.eqb Bool.eqb
         led_tree merge setter_of coerce app pin] in *;
    rewrite Hset; reflexivity.
Qed.

(** The mode written through the tree is the mode stored by
    [set_task_mode], whatever the string. *)
Lemma write_mode_through_tree (v1 v2 : string) (b : bool) (mode : string)
    (s : Workshop) :
  Workshop_set (param_tree v1 v2 b) ["LED_task"; "task_mode"]
    (Val (VStr mode)) s =
  set_task_mode mode s.
Proof. reflexivity. Qed.

(** ** The LED task switched on and off *)

(** [set_LED_task_enable], the method written for the 'enable' leaf, does
    stop and restart the task and touches no counter. *)
Lemma set_LED_task_enable_works (s : Workshop) (p : PeriodicCallback) :
  LED_task_enable s = true -> LED_ioloop_task s = Some p ->
  exists s1 s2 : Workshop,
    set_LED_task_enable false s = (Ok tt, s1) /\
    set_LED_task_enable false s1 = (Ok tt, s1) /\
    LED_task_enable s1 = false /\
    LED_ioloop_task s1 = Some (with_running false p) /\
    set_LED_task_enable true s1 = (Ok tt, s2) /\
    LED_task_enable s2 = true /\
    LED_ioloop_task s2 =
      Some (mkPeriodic LED_cb (LED_task_interval s * 1000) true) /\
    (rave_ioloop_counter s2, traffic_wait_counter s2, traffic_loop_counter s2) =
    (rave_ioloop_counter s, traffic_wait_counter s, traffic_loop_counter s).
Proof.
  intros He Hp.
  exists (with_LED_ioloop_task (Some (with_running false p))
            (with_LED_task_enable false s)).
  eexists.
  split.
  { unfold set_LED_task_enable. rewrite run_gets, He. cbn [Bool.eqb negb].
    unfold stop_LED_task. mrun. rewrite Hp. reflexivity. }
  split; [reflexivity|]. split; [reflexivity|]. split; [reflexivity|].
  split.
  { unfold set_LED_task_enable. rewrite run_gets. ssimpl. cbn [Bool.eqb negb].
    unfold start_LED_task. mrun. reflexivity. }
  repeat split.
Qed.

(** C6. The write of the disable value to the 'enable' parameter does not
    reach [set_LED_task_enable]: the setter of the leaf is the boolean
    [self.LED_task_enable], not the method, so the write is refused as
    read-only and the fast task of a new, enabled object is still
    running. *)
Theorem enable_write_refused (v1 v2 : string) (b : bool) (s : Workshop) :
  Workshop_set (param_tree v1 v2 b) ["LED_task"; "enable"] (Val (VBool false)) s =
    (Raise (WorkshopError (ReadOnly ["LED_task"; "enable"])), s) /\
  Workshop_set (param_tree v1 v2 b) ["LED_task"]
    (Dict [("enable", Val (VBool false))]) s =
    (Raise (WorkshopError (ReadOnly ["LED_task"; "enable"])), s) /\
  fast_task_running lab = true /\
  fast_task_running
    (snd (Workshop_set (param_tree v1 v2 true) ["LED_task"; "enable"]
            (Val (VBool false)) lab)) = true.
Proof.
  split; [eapply set_read_only; reflexivity|].
  split; [reflexivity|]. split; reflexivity.
Qed.

(** ** Operations as functions on the state *)

Lemma temp_bound_pair (s : Workshop) (lower upper : Q) :
  temp_bounds s = [lower; upper] ->
  temp_bound 0 s = lower /\ temp_bound 1 s = upper.
Proof. intros H. unfold temp_bound. rewrite H. split; reflexivity. Qed.

Lemma run_op_after (o : op) (s : Workshop) :
  wf s -> run_op o s = (Ok tt, after_op o s).
Proof.
  intros (Hl & Hs & Hb). destruct o as [|t|c v|m|q|u q]; cbn [run_op after_op].
  - destruct (String.eqb_spec (task_mode s) "rave") as [Er|Er];
      [apply LED_tick_rave; assumption|].
    destruct (String.eqb_spec (task_mode s) "traffic") as [Et|Et];
      [apply LED_tick_traffic; assumption|apply LED_tick_idle; assumption].
  - destruct (bounds_pair s Hb) as (lower & upper & Hlu).
    destruct (temp_bound_pair s lower upper Hlu) as [-> ->].
    unfold slow_tick, sense. rewrite run_modify.
    apply (temp_tick (with_thermoC (mkMax t) s) lower upper);
      [exact Hs|intros _; split; assumption].
  - apply set_led_state_ok. unfold leds_ok in Hl.
    destruct c; cbv delta [pin RED YELLOW GREEN]; lia.
  - reflexivity.
  - reflexivity.
  - unfold set_temp_bounds. rewrite run_gets.
    rewrite run_setitem by (unfold bounds_ok in Hb; destruct u; lia).
    reflexivity.
Qed.

Lemma after_op_wf (o : op) (s : Workshop) : wf s -> wf (after_op o s).
Proof.
  intros Hwf.
  destruct (run_op_effect o s Hwf) as (s' & acts & Hrun & Heff & Hs & Hb).
  rewrite (run_op_after o s Hwf) in Hrun.
  apply (f_equal snd) in Hrun. cbn [snd] in Hrun. subst s'.
  split; [|split; assumption].
  apply (leds_ok_effect acts s _ Heff). apply Hwf.
Qed.

(** A field that [commanded_all] leaves alone is read through it. *)
Ltac through_leds := ssimpl; try rewrite commanded_all_frame; ssimpl.


Lemma run_ops_after (ops : list op) (s : Workshop) :
  wf s ->
  exists s' : Workshop, run_ops ops s = (Ok tt, s') /\ wf s' /\
    s' = fold_left (fun st o => after_op o st) ops s.
Proof.
  revert s. induction ops as [|o ops IH]; intros s Hwf.
  - exists s. split; [reflexivity|]. split; [exact Hwf|reflexivity].
  - destruct (IH (after_op o s) (after_op_wf o s Hwf)) as (s' & Hrun & Hwf' & Hs').
    exists s'. unfold run_ops in *. cbn [for_each fold_left].
    rewrite (bind_run _ _ _ _ _ (run_op_after o s Hwf)). auto.
Qed.

(** ** Construction, the timers and shutdown *)

Lemma new_object_tasks (bank : MCP23008) (sensor : Max31856) (rnd : Random)
    (now : Q) (e1 : bool) (interval : Q) (e2 : bool) :
  let s := Workshop_new bank sensor rnd now e1 interval e2 in
  LED_task_enable s = e1 /\
  LED_ioloop_task s =
    (if e1 then Some (mkPeriodic LED_cb (interval * 1000) true) else None) /\
  temp_task_enable s = e2 /\
  temp_ioloop_task s =
    (if e2 then Some (mkPeriodic temp_cb 1000 true) else None) /\
  detached_tasks s = [].
Proof. destruct e1, e2; repeat split. Qed.


(** X2. [cleanup] on an object built with the fast task enabled returns
    and stops the fast timer, and nothing else: the slow timer is still
    started if it was. *)
Theorem cleanup_stops_fast_task_only (bank : MCP23008) (sensor : Max31856)
    (rnd : Random) (now : Q) (interval : Q) (e2 : bool) :
  let s := Workshop_new bank sensor rnd now true interval e2 in
  exists s' : Workshop,
    cleanup s = (Ok tt, s') /\
    LED_task_enable s' = false /\ fast_task_running s' = false /\
    temp_task_enable s' = e2 /\ started (temp_ioloop_task s') = e2 /\
    s' = with_LED_ioloop_task
           (Some (mkPeriodic LED_cb (interval * 1000) false))
           (with_LED_task_enable false s).
Proof.
  intros s. eexists. split.
  { unfold cleanup, stop_LED_task. mrun.
    destruct (new_object_tasks bank sensor rnd now true interval e2)
      as (_ & Hp & _). fold s in Hp. rewrite Hp. reflexivity. }
  destruct e2; repeat split.
Qed.

Lemma stop_unstarted (s : Workshop) :
  LED_task_enable s = false -> LED_ioloop_task s = None ->
  cleanup s = (Raise AttributeError, s).
Proof.
  intros He Hp. unfold cleanup, stop_LED_task. mrun. rewrite Hp.
  unfold raise. f_equal. destruct s. simpl in He. subst. reflexivity.
Qed.

(** X3. [cleanup] on an object built with the fast task disabled raises
    [AttributeError]: the timer attribute was never created.  The object is
    left as it was. *)
Theorem cleanup_without_task_raises (bank : MCP23008) (sensor : Max31856)
    (rnd : Random) (now : Q) (interval : Q) (e2 : bool) :
  let s := Workshop_new bank sensor rnd now false interval e2 in
  cleanup s = (Raise AttributeError, s).
Proof.
  intros s.
  destruct (new_object_tasks bank sensor rnd now false interval e2)
    as (He & Hp & _).
  fold s in He, Hp. apply stop_unstarted; assumption.
Qed.






(** ** Writes of single parameters *)

Lemma index_out_of_range (n : nat) (i : Z) :
  i < - Z.of_nat n \/ Z.of_nat n <= i -> Py.index n i = None.
Proof.
  intros H. unfold Py.index.
  destruct (Z.leb_spec 0 i), (Z.ltb_spec i (Z.of_nat n)),
    (Z.leb_spec (- Z.of_nat n) i), (Z.ltb_spec i 0);
    cbn [andb]; try lia; reflexivity.
Qed.

(** X6. On bounds of two entries, [set_temp_bounds] with subscript 0 or -2
    replaces the lower bound and with 1 or -1 the upper bound, leaving the
    other bound and the rest of the object alone; with any other subscript
    it raises [IndexError] and changes nothing. *)
Theorem set_temp_bounds_subscript (s : Workshop) (bound : Z)
    (temp lower upper : Q) :
  temp_bounds s = [lower; upper] ->
  (bound = 0 \/ bound = -2 ->
   set_temp_bounds bound temp s = (Ok tt, with_temp_bounds [temp; upper] s)) /\
  (bound = 1 \/ bound = -1 ->
   set_temp_bounds bound temp s = (Ok tt, with_temp_bounds [lower; temp] s)) /\
  (bound < -2 \/ 2 <= bound ->
   set_temp_bounds bound temp s = (Raise IndexError, s)).
Proof.
  intros Hb. unfold set_temp_bounds. rewrite run_gets, Hb.
  split; [|split].
  - intros [-> | ->]; reflexivity.
  - intros [-> | ->]; reflexivity.
  - intros H. unfold Py.setitem.
    rewrite index_out_of_range by (cbn [length]; lia). reflexivity.
Qed.

Lemma set_temp_bounds_subscript_witness :
  temp_bounds lab = [43 # 2; 22]%Q /\
  ((2 = 0 \/ 2 = -2 ->
    set_temp_bounds 2 25 lab = (Ok tt, with_temp_bounds [25; 22]%Q lab)) /\
   (2 = 1 \/ 2 = -1 ->
    set_temp_bounds 2 25 lab = (Ok tt, with_temp_bounds [43 # 2; 25]%Q lab)) /\
   (2 < -2 \/ 2 <= 2 ->
    set_temp_bounds 2 25 lab = (Raise IndexError, lab))).
Proof.
  assert (H : temp_bounds lab = [43 # 2; 22]%Q) by reflexivity.
  split; [exact H|].
  exact (set_temp_bounds_subscript lab 2 25 (43 # 2) 22 H).
Defined.

(** X7. A level written to an LED is the level its getter then returns,
    the getters of the other two LEDs return what they returned before, and
    the bank has received that one call. *)
Theorem led_write_read (c c' : colour) (v : Z) (s : Workshop) :
  leds_ok s ->
  exists s' : Workshop,
    set_led_state (pin c) v s = (Ok tt, s') /\
    led_state (pin c) s' = v /\
    (c' <> c -> led_state (pin c') s' = led_state (pin c') s) /\
    outputs (mcp s') = outputs (mcp s) ++ [(pin c, v)].
Proof.
  intros Hl. unfold leds_ok in Hl. exists (commanded (pin c) v s).
  split; [apply set_led_state_ok; destruct c; cbv delta [pin RED YELLOW GREEN]; lia|].
  unfold led_state, commanded. ssimpl.
  destruct (led_states s) as [|x [|y [|z [|w l]]]]; try discriminate Hl.
  split; [destruct c; reflexivity|]. split; [|reflexivity].
  intros Hne. destruct c, c'; try contradiction; reflexivity.
Qed.

Lemma led_write_read_witness :
  leds_ok lab /\
  exists s' : Workshop,
    set_led_state (pin Red) 1 lab = (Ok tt, s') /\
    led_state (pin Red) s' = 1 /\
    (Green <> Red -> led_state (pin Green) s' = led_state (pin Green) lab) /\
    outputs (mcp s') = outputs (mcp lab) ++ [(pin Red, 1)].
Proof.
  assert (H : leds_ok lab) by reflexivity.
  split; [exact H|].
  exact (led_write_read Red Green 1 lab H).
Defined.

(** ** Modes and ticks *)

Lemma fast_ticks_idle (k : nat) (s : Workshop) :
  task_mode s <> "rave" -> task_mode s <> "traffic" ->
  fast_ticks k s = (Ok tt, s).
Proof.
  intros Hr Ht. unfold fast_ticks. induction k as [|k IH]; [reflexivity|].
  cbn [repeatM]. rewrite (bind_run _ _ _ _ _ (LED_tick_idle s Hr Ht)). exact IH.
Qed.

(** X8. Leaving traffic mode for a mode other than rave, letting any number
    of fast ticks pass and coming back to traffic mode gives back the very
    same object: the sequence is paused, its phase, its loop count and the
    LEDs are as they were. *)
Theorem traffic_pause_transparent (mode : string) (k : nat) (s : Workshop) :
  task_mode s = "traffic" -> mode <> "rave" -> mode <> "traffic" ->
  (set_task_mode mode ;; fast_ticks k ;; set_task_mode "traffic") s = (Ok tt, s).
Proof.
  intros Hm Hr Ht. unfold set_task_mode at 1. rewrite run_modify.
  rewrite (bind_run _ _ _ _ _ (fast_ticks_idle k (with_task_mode mode s) Hr Ht)).
  unfold set_task_mode, modify. f_equal. destruct s. simpl in Hm. subst.
  reflexivity.
Qed.

Lemma traffic_pause_transparent_witness :
  let s := snd (fast_ticks 5 (in_mode "traffic" lab)) in
  (task_mode s = "traffic" /\ ("command" : string) <> "rave" /\
   ("command" : string) <> "traffic") /\
  (set_task_mode "command" ;; fast_ticks 7 ;; set_task_mode "traffic") s =
  (Ok tt, s).
Proof.
  intros s.
  assert (H : task_mode s = "traffic" /\ ("command" : string) <> "rave" /\
              ("command" : string) <> "traffic")
    by (repeat split; try reflexivity; discriminate).
  split; [exact H|].
  destruct H as (Hm & Hr & Ht).
  exact (traffic_pause_transparent "command" 7 s Hm Hr Ht).
Defined.

(** X9. On a well-formed object a fast tick leaves the sampler, the count
    of samples, the bounds and the mode as they are, and a slow tick leaves
    the rave counter, the traffic phase, the loop counter, the random source
    and the mode as they are. *)
Theorem ticks_keep_apart (t : Q) (s : Workshop) :
  wf s ->
  exists s1 s2 : Workshop,
    LED_ioloop_callback s = (Ok tt, s1) /\
    slow_tick t s = (Ok tt, s2) /\
    (avg_temp s1, avg_temp_calc s1, avg_count s1, ten_count_switch s1,
     temp_count s1, temp_bounds s1, task_mode s1) =
    (avg_temp s, avg_temp_calc s, avg_count s, ten_count_switch s,
     temp_count s, temp_bounds s, task_mode s) /\
    (rave_ioloop_counter s2, traffic_wait_counter s2, traffic_loop_counter s2,
     random s2, task_mode s2) =
    (rave_ioloop_counter s, traffic_wait_counter s, traffic_loop_counter s,
     random s, task_mode s).
Proof.
  intros Hwf. exists (after_op FastTick s), (after_op (SlowTick t) s).
  split; [exact (run_op_after FastTick s Hwf)|].
  split; [exact (run_op_after (SlowTick t) s Hwf)|].
  split; cbn [after_op].
  - destruct (task_mode s =? "rave")%string.
    { unfold rave_next. through_leds. reflexivity. }
    destruct (task_mode s =? "traffic")%string; [|reflexivity].
    unfold traffic_next. destruct (traffic_wait_counter s + 1 =? 39);
      through_leds; reflexivity.
  - unfold shown, sampled. ssimpl.
    destruct (task_mode s =? "thermometer")%string; through_leds; reflexivity.
Qed.

Lemma ticks_keep_apart_witness :
  wf lab /\
  exists s1 s2 : Workshop,
    LED_ioloop_callback lab = (Ok tt, s1) /\
    slow_tick 23 lab = (Ok tt, s2) /\
    (avg_temp s1, avg_temp_calc s1, avg_count s1, ten_count_switch s1,
     temp_count s1, temp_bounds s1, task_mode s1) =
    (avg_temp lab, avg_temp_calc lab, avg_count lab, ten_count_switch lab,
     temp_count lab, temp_bounds lab, task_mode lab) /\
    (rave_ioloop_counter s2, traffic_wait_counter s2, traffic_loop_counter s2,
     random s2, task_mode s2) =
    (rave_ioloop_counter lab, traffic_wait_counter lab,
     traffic_loop_counter lab, random lab, task_mode lab).
Proof.
  assert (H : wf lab).
  { repeat split; try reflexivity; vm_compute; discriminate. }
  split; [exact H|].
  exact (ticks_keep_apart 23 lab H).
Defined.

(** ** Counters *)

Lemma fold_after_inv (P : Workshop -> Prop) :
  (forall (o : op) (s : Workshop), wf s -> P s -> P (after_op o s)) ->
  forall (ops : list op) (s : Workshop), wf s -> P s ->
    P (fold_left (fun st o => after_op o st) ops s).
Proof.
  intros Hstep ops. induction ops as [|o ops IH]; intros s Hwf HP; [exact HP|].
  cbn [fold_left]. apply IH; [apply after_op_wf; exact Hwf|].
  apply Hstep; assumption.
Qed.

Lemma after_op_counters (o : op) (s : Workshop) :
  0 <= traffic_wait_counter s <= 38 /\ 0 <= traffic_loop_counter s /\
  0 <= rave_ioloop_counter s ->
  0 <= traffic_wait_counter (after_op o s) <= 38 /\
  0 <= traffic_loop_counter (after_op o s) /\
  0 <= rave_ioloop_counter (after_op o s).
Proof.
  intros H. destruct o as [|t|c v|m|q|u q]; cbn [after_op].
  - destruct (task_mode s =? "rave")%string.
    { unfold rave_next. through_leds. lia. }
    destruct (task_mode s =? "traffic")%string; [|exact H].
    rewrite traffic_next_counter, traffic_next_loops.
    assert (Hr : rave_ioloop_counter (traffic_next s) = rave_ioloop_counter s).
    { unfold traffic_next. destruct (traffic_wait_counter s + 1 =? 39);
        through_leds; reflexivity. }
    rewrite Hr. destruct (Z.eqb_spec (traffic_wait_counter s + 1) 39); lia.
  - unfold shown, sampled. ssimpl.
    destruct (task_mode s =? "thermometer")%string; through_leds; exact H.
  - exact H.
  - exact H.
  - exact H.
  - exact H.
Qed.

(** X10. From a new object, after every sequence of operations, the traffic
    phase counter is in 0..38 and the loop counter and the rave counter are
    not negative. *)
Theorem counters_in_range (bank : MCP23008) (sensor : Max31856)
    (rnd : Random) (now : Q) (e1 : bool) (interval : Q) (e2 : bool)
    (ops : list op) :
  exists s : Workshop,
    run_ops ops (Workshop_new bank sensor rnd now e1 interval e2) = (Ok tt, s) /\
    0 <= traffic_wait_counter s <= 38 /\
    0 <= traffic_loop_counter s /\
    0 <= rave_ioloop_counter s.
Proof.
  destruct (Workshop_new_inv bank sensor rnd now e1 interval e2) as (Hwf & _ & _).
  destruct (run_ops_after ops _ Hwf) as (s & Hrun & _ & Hs).
  exists s. split; [exact Hrun|]. rewrite Hs.
  apply (fold_after_inv
           (fun st => 0 <= traffic_wait_counter st <= 38 /\
                      0 <= traffic_loop_counter st /\
                      0 <= rave_ioloop_counter st)).
  - intros o st _ H. apply after_op_counters. exact H.
  - exact Hwf.
  - destruct e1, e2; cbn; lia.
Qed.

Lemma after_op_temp_count (o : op) (s : Workshop) :
  temp_count (after_op o s) = temp_count s + slow_tick_count [o].
Proof.
  destruct o as [|t|c v|m|q|u q]; cbn [after_op slow_tick_count].
  - destruct (task_mode s =? "rave")%string.
    { unfold rave_next. through_leds. lia. }
    destruct (task_mode s =? "traffic")%string; [|lia].
    unfold traffic_next. destruct (traffic_wait_counter s + 1 =? 39);
      through_leds; lia.
  - unfold shown, sampled. ssimpl.
    destruct (task_mode s =? "thermometer")%string; through_leds; lia.
  - unfold commanded. ssimpl. lia.
  - ssimpl. lia.
  - ssimpl. lia.
  - ssimpl. lia.
Qed.

Lemma fold_after_temp_count (ops : list op) (s : Workshop) :
  temp_count (fold_left (fun st o => after_op o st) ops s) =
  temp_count s + slow_tick_count ops.
Proof.
  revert s. induction ops as [|o ops IH]; intros s; cbn [fold_left].
  - cbn. lia.
  - rewrite IH, after_op_temp_count. destruct o; cbn [slow_tick_count]; lia.
Qed.

(** X11. From a new object, after every sequence of operations, the count
    of samples [temp_count] is the number of slow ticks among them, whatever
    the mode was at each and wherever the write cursor is. *)
Theorem temp_count_counts_slow_ticks (bank : MCP23008) (sensor : Max31856)
    (rnd : Random) (now : Q) (e1 : bool) (interval : Q) (e2 : bool)
    (ops : list op) :
  exists s : Workshop,
    run_ops ops (Workshop_new bank sensor rnd now e1 interval e2) = (Ok tt, s) /\
    temp_count s = slow_tick_count ops.
Proof.
  destruct (Workshop_new_inv bank sensor rnd now e1 interval e2) as (Hwf & _ & _).
  destruct (run_ops_after ops _ Hwf) as (s & Hrun & _ & Hs).
  exists s. split; [exact Hrun|]. rewrite Hs, fold_after_temp_count.
  assert (H0 : temp_count (Workshop_new bank sensor rnd now e1 interval e2) = 0)
    by (destruct e1, e2; reflexivity).
  rewrite H0. lia.
Qed.

(** ** The traffic cycle from any phase *)

Lemma traffic_trace_add (first : Z) (n m : nat) :
  traffic_trace first (n + m) =
  traffic_trace first n ++ traffic_trace (first + Z.of_nat n) m.
Proof.
  revert first. induction n as [|n IH]; intros first.
  - cbn [traffic_trace Nat.add app]. rewrite Z.add_0_r. reflexivity.
  - cbn [traffic_trace Nat.add]. rewrite IH, <- app_assoc.
    do 3 f_equal. lia.
Qed.

Lemma traffic_trace_total (n : nat) :
  (n <= 38)%nat ->
  length (traffic_trace (Z.of_nat n + 1) (38 - n) ++ traffic_trace 1 n) = 8%nat.
Proof.
  intros H.
  assert (E : traffic_trace 1 38 =
              traffic_trace 1 n ++ traffic_trace (Z.of_nat n + 1) (38 - n)).
  { replace 38%nat with (n + (38 - n))%nat at 1 by lia.
    rewrite traffic_trace_add. do 2 f_equal. lia. }
  rewrite length_app, Nat.add_comm, <- length_app, <- E. reflexivity.
Qed.

(** X12. In traffic mode, from any phase of 0..38, 39 fast ticks bring the
    phase counter back to where it was and add exactly 1 to the loop
    counter; the bank has received the calls of the rest of the cycle and
    then those of its beginning, 8 in all. *)
Theorem traffic_cycle_from_any_phase (s : Workshop) :
  task_mode s = "traffic" -> leds_ok s -> 0 <= traffic_wait_counter s <= 38 ->
  exists s' : Workshop,
    fast_ticks 39 s = (Ok tt, s') /\
    traffic_wait_counter s' = traffic_wait_counter s /\
    traffic_loop_counter s' = traffic_loop_counter s + 1 /\
    outputs (mcp s') =
      outputs (mcp s) ++
      traffic_trace (traffic_wait_counter s + 1)
        (38 - Z.to_nat (traffic_wait_counter s)) ++
      traffic_trace 1 (Z.to_nat (traffic_wait_counter s)) /\
    length (traffic_trace (traffic_wait_counter s + 1)
              (38 - Z.to_nat (traffic_wait_counter s)) ++
            traffic_trace 1 (Z.to_nat (traffic_wait_counter s))) = 8%nat.
Proof.
  intros Hm Hl Hc.
  set (c := traffic_wait_counter s) in *.
  set (n := Z.to_nat c).
  assert (Hn : Z.of_nat n = c) by (unfold n; lia).
  destruct (traffic_run (38 - n) s Hm Hl) as (s1 & Hrun1 & Hm1 & Hl1 & Hc1 & Hk1 & Ho1);
    [fold c; lia | fold c; lia |].
  fold c in Hc1, Ho1.
  assert (Hc1' : traffic_wait_counter s1 = 38) by lia.
  set (s2 := traffic_next s1).
  assert (Hm2 : task_mode s2 = "traffic") by (unfold s2; rewrite traffic_next_mode; exact Hm1).
  assert (Hl2 : leds_ok s2) by (apply traffic_next_leds_ok; exact Hl1).
  assert (Hc2 : traffic_wait_counter s2 = 0)
    by (unfold s2; rewrite traffic_next_counter, Hc1'; reflexivity).
  assert (Hk2 : traffic_loop_counter s2 = traffic_loop_counter s + 1)
    by (unfold s2; rewrite traffic_next_loops, Hc1', Hk1; reflexivity).
  assert (Ho2 : outputs (mcp s2) = outputs (mcp s1))
    by (unfold s2; rewrite traffic_next_outputs, Hc1'; cbn; apply app_nil_r).
  destruct (traffic_run n s2 Hm2 Hl2) as (s3 & Hrun3 & _ & _ & Hc3 & Hk3 & Ho3);
    [rewrite Hc2; lia | rewrite Hc2; lia |].
  rewrite Hc2 in Hc3, Ho3.
  exists s3. split.
  { unfold fast_ticks in *.
    replace 39%nat with ((38 - n) + (1 + n))%nat by lia.
    rewrite (repeatM_add _ _ _ _ _ Hrun1).
    assert (Hone : repeatM 1 LED_ioloop_callback s1 = (Ok tt, s2)).
    { cbn [repeatM]. rewrite (bind_run _ _ _ _ _ (LED_tick_traffic s1 Hm1 Hl1)).
      reflexivity. }
    rewrite (repeatM_add _ _ _ _ _ Hone). exact Hrun3. }
  split; [lia|]. split; [lia|]. split.
  - rewrite Ho3, Ho2, Ho1, <- app_assoc. reflexivity.
  - rewrite <- Hn. apply traffic_trace_total. lia.
Qed.

Lemma traffic_cycle_from_any_phase_witness :
  let s := snd (fast_ticks 20 (in_mode "traffic" lab)) in
  (task_mode s = "traffic" /\ leds_ok s /\ 0 <= traffic_wait_counter s <= 38) /\
  exists s' : Workshop,
    fast_ticks 39 s = (Ok tt, s') /\
    traffic_wait_counter s' = traffic_wait_counter s /\
    traffic_loop_counter s' = traffic_loop_counter s + 1 /\
    outputs (mcp s') =
      outputs (mcp s) ++
      traffic_trace (traffic_wait_counter s + 1)
        (38 - Z.to_nat (traffic_wait_counter s)) ++
      traffic_trace 1 (Z.to_nat (traffic_wait_counter s)) /\
    length (traffic_trace (traffic_wait_counter s + 1)
              (38 - Z.to_nat (traffic_wait_counter s)) ++
            traffic_trace 1 (Z.to_nat (traffic_wait_counter s))) = 8%nat.
Proof.
  intros s.
  assert (H : task_mode s = "traffic" /\ leds_ok s /\
              0 <= traffic_wait_counter s <= 38).
  { split; [reflexivity|]. split; [reflexivity|].
    assert (E : traffic_wait_counter s = 20) by reflexivity.
    rewrite E. lia. }
  split; [exact H|].
  destruct H as (Hm & Hl & Hc).
  exact (traffic_cycle_from_any_phase s Hm Hl Hc).
Defined.

(** ** The thermometer, whatever the bounds *)

Lemma indicator_cases (t lower upper : Q) :
  indicator t lower upper = [] \/ indicator t lower upper = [(RED, 1)] \/
  indicator t lower upper = [(YELLOW, 1)] \/
  indicator t lower upper = [(GREEN, 1)].
Proof.
  unfold indicator.
  destruct (Py.lt t lower), (Py.lt t upper && Py.gt t lower), (Py.gt t upper);
    auto.
Qed.

(** X13. In thermometer mode, whatever the two bounds are, also the wrong
    way round, a slow tick leaves at most one of the three LEDs lit. *)
Theorem thermometer_at_most_one_lit (s : Workshop) (lower upper : Q) :
  task_mode s = "thermometer" -> sampler_ok s -> leds_ok s ->
  temp_bounds s = [lower; upper] ->
  exists s' : Workshop,
    temp_ioloop_callback s = (Ok tt, s') /\
    (led_states s' = [0; 0; 0] \/ led_states s' = [1; 0; 0] \/
     led_states s' = [0; 1; 0] \/ led_states s' = [0; 0; 1]).
Proof.
  intros Hm Hs Hl Hb.
  set (t := temperature (thermoC s)).
  exists (shown t lower upper (sampled t s)).
  split; [apply temp_tick; [exact Hs | intros _; split; assumption]|].
  unfold shown.
  assert (E : task_mode (sampled t s) = "thermometer") by exact Hm.
  rewrite E. cbn [String.eqb Ascii.eqb Bool.eqb].
  assert (Hl' : leds_ok (sampled t s)) by exact Hl.
  assert (Ho : outputs (mcp (sampled t s)) = outputs (mcp s)) by reflexivity.
  destruct (indicator_cases t lower upper) as [-> | [-> | [-> | ->]]].
  - left. apply (lights_only_shown None s); auto.
  - right. right. right. apply (lights_only_shown (Some RED) s); auto.
  - right. right. left. apply (lights_only_shown (Some YELLOW) s); auto.
  - right. left. apply (lights_only_shown (Some GREEN) s); auto.
Qed.

Lemma thermometer_at_most_one_lit_witness :
  (task_mode inverted = "thermometer" /\ sampler_ok inverted /\
   leds_ok inverted /\ temp_bounds inverted = [22; 21]%Q) /\
  exists s' : Workshop,
    temp_ioloop_callback inverted = (Ok tt, s') /\
    (led_states s' = [0; 0; 0] \/ led_states s' = [1; 0; 0] \/
     led_states s' = [0; 1; 0] \/ led_states s' = [0; 0; 1]).
Proof.
  assert (H : task_mode inverted = "thermometer" /\ sampler_ok inverted /\
              leds_ok inverted /\ temp_bounds inverted = [22; 21]%Q).
  { split; [reflexivity|]. split; [|split; reflexivity].
    split; [reflexivity|]. split; vm_compute; discriminate. }
  split; [exact H|].
  destruct H as (Hm & Hs & Hl & Hb).
  exact (thermometer_at_most_one_lit inverted 22 21 Hm Hs Hl Hb).
Defined.

(** ** Levels *)

Lemma after_op_calls (o : op) (s : Workshop) :
  led_states (after_op o s) =
    fold_left (fun l a => <[Z.to_nat (fst a) := snd a]> l) (op_calls o s)
      (led_states s) /\
  outputs (mcp (after_op o s)) = outputs (mcp s) ++ op_calls o s.
Proof.
  destruct o as [|t|c v|m|q|u q]; cbn [after_op op_calls].
  - destruct (task_mode s =? "rave")%string.
    { unfold rave_next. ssimpl.
      rewrite commanded_all_led_states, commanded_all_outputs. split; reflexivity. }
    destruct (task_mode s =? "traffic")%string.
    + split; [|apply traffic_next_outputs].
      unfold traffic_next. destruct (traffic_wait_counter s + 1 =? 39); ssimpl;
        rewrite commanded_all_led_states; reflexivity.
    + rewrite app_nil_r. split; reflexivity.
  - unfold shown. change (task_mode (sampled t (with_thermoC (mkMax t) s)))
      with (task_mode s).
    destruct (task_mode s =? "thermometer")%string.
    + rewrite commanded_all_led_states, commanded_all_outputs. split; reflexivity.
    + rewrite app_nil_r. split; reflexivity.
  - split; reflexivity.
  - rewrite app_nil_r. split; reflexivity.
  - rewrite app_nil_r. split; reflexivity.
  - rewrite app_nil_r. split; reflexivity.
Qed.

Lemma op_calls_valid (o : op) (s : Workshop) :
  binary_write o -> Forall valid_call (op_calls o s).
Proof.
  intros Hw. destruct o as [|t|c v|m|q|u q]; cbn [op_calls];
    try apply Forall_nil_2.
  - destruct (task_mode s =? "rave")%string; [apply rave_calls_valid|].
    destruct (task_mode s =? "traffic")%string; [|apply Forall_nil_2].
    unfold traffic_actions, valid_call.
    destruct (traffic_wait_counter s + 1 =? 2),
      (traffic_wait_counter s + 1 =? 14), (traffic_wait_counter s + 1 =? 22),
      (traffic_wait_counter s + 1 =? 34);
      repeat (apply Forall_cons_2;
              [cbn [fst snd]; cbv delta [RED YELLOW GREEN]; lia|]);
      apply Forall_nil_2.
  - destruct (task_mode s =? "thermometer")%string; [|apply Forall_nil_2].
    unfold all_off, indicator, valid_call.
    destruct (Py.lt t (temp_bound 0 s)),
      (Py.lt t (temp_bound 1 s) && Py.gt t (temp_bound 0 s)),
      (Py.gt t (temp_bound 1 s)); cbn [app];
      repeat (apply Forall_cons_2;
              [cbn [fst snd]; cbv delta [RED YELLOW GREEN]; lia|]);
      apply Forall_nil_2.
  - cbn [binary_write] in Hw. apply Forall_cons_2; [|apply Forall_nil_2].
    unfold valid_call. cbn [fst snd].
    destruct c; cbv delta [pin RED YELLOW GREEN]; cbv beta iota; lia.
Qed.

Lemma fold_insert_binary (acts : list (Z * Z)) (l : list Z) :
  Forall valid_call acts -> Forall (fun x => 0 <= x <= 1) l ->
  Forall (fun x => 0 <= x <= 1)
    (fold_left (fun l a => <[Z.to_nat (fst a) := snd a]> l) acts l).
Proof.
  revert l. induction acts as [|a acts IH]; intros l Ha Hl; [exact Hl|].
  apply Forall_cons in Ha. destruct Ha as [[_ Hv] Ha].
  cbn [fold_left]. apply IH; [exact Ha|].
  apply Forall_insert; assumption.
Qed.

Lemma run_ops_levels (ops : list op) : forall s : Workshop,
  wf s -> Forall binary_write ops ->
  Forall (fun x => 0 <= x <= 1) (led_states s) ->
  exists (s' : Workshop) (calls : list (Z * Z)),
    run_ops ops s = (Ok tt, s') /\
    outputs (mcp s') = outputs (mcp s) ++ calls /\
    Forall valid_call calls /\
    Forall (fun x => 0 <= x <= 1) (led_states s').
Proof.
  induction ops as [|o ops IH]; intros s Hwf Hw Hl.
  - exists s, []. split; [reflexivity|]. rewrite app_nil_r.
    split; [reflexivity|]. split; [apply Forall_nil_2|exact Hl].
  - apply Forall_cons in Hw. destruct Hw as [Ho Hw].
    destruct (after_op_calls o s) as [Hleds Houts].
    pose proof (op_calls_valid o s Ho) as Hv.
    destruct (IH (after_op o s)) as (s' & calls & Hrun & Hout & Hvalid & Hbin).
    + apply after_op_wf. exact Hwf.
    + exact Hw.
    + rewrite Hleds. apply fold_insert_binary; assumption.
    + exists s', (op_calls o s ++ calls). unfold run_ops in *. cbn [for_each].
      rewrite (bind_run _ _ _ _ _ (run_op_after o s Hwf)).
      split; [exact Hrun|]. split; [rewrite Hout, Houts, app_assoc; reflexivity|].
      split; [|exact Hbin]. apply Forall_app. split; assumption.
Qed.

(** X14. From a new object, along every sequence of operations in which
    the LEDs are only written with 0 or 1, every call the bank receives has
    a channel of 0..2 and a level of 0 or 1, and every entry of [led_states]
    is 0 or 1. *)
Theorem levels_stay_binary (bank : MCP23008) (sensor : Max31856)
    (rnd : Random) (now : Q) (e1 : bool) (interval : Q) (e2 : bool)
    (ops : list op) :
  Forall binary_write ops ->
  exists (s : Workshop) (calls : list (Z * Z)),
    run_ops ops (Workshop_new bank sensor rnd now e1 interval e2) = (Ok tt, s) /\
    outputs (mcp s) = outputs bank ++ [(0, 0); (1, 0); (2, 0)] ++ calls /\
    Forall valid_call calls /\
    Forall (fun x => 0 <= x <= 1) (led_states s).
Proof.
  intros Hw.
  destruct (Workshop_new_inv bank sensor rnd now e1 interval e2) as (Hwf & _ & _).
  set (s0 := Workshop_new bank sensor rnd now e1 interval e2) in *.
  assert (Hl : led_states s0 = [0; 0; 0]) by (destruct e1, e2; reflexivity).
  assert (Ho : outputs (mcp s0) =
               ((outputs bank ++ [(0, 0)]) ++ [(1, 0)]) ++ [(2, 0)])
    by (destruct e1, e2; reflexivity).
  destruct (run_ops_levels ops s0 Hwf Hw) as (s & calls & Hrun & Hout & Hv & Hbin).
  { rewrite Hl. repeat (apply Forall_cons_2; [lia|]). apply Forall_nil_2. }
  exists s, calls. split; [exact Hrun|]. split; [|split; assumption].
  rewrite Hout, Ho, <- !app_assoc. reflexivity.
Qed.

Lemma levels_stay_binary_witness :
  let ops := [WriteMode "rave"; FastTick; WriteLed Red 1; SlowTick 20] in
  Forall binary_write ops /\
  exists (s : Workshop) (calls : list (Z * Z)),
    run_ops ops (Workshop_new (mkMCP [] []) (mkMax 21) (mkRandom Z.of_nat 0) 0
                   true (1 # 4) true) = (Ok tt, s) /\
    outputs (mcp s) = outputs (mkMCP [] []) ++ [(0, 0); (1, 0); (2, 0)] ++ calls /\
    Forall valid_call calls /\
    Forall (fun x => 0 <= x <= 1) (led_states s).
Proof.
  intros ops.
  assert (H : Forall binary_write ops).
  { unfold ops. repeat (apply Forall_cons_2; [cbn [binary_write]; auto; lia|]).
    apply Forall_nil_2. }
  split; [exact H|].
  exact (levels_stay_binary (mkMCP [] []) (mkMax 21) (mkRandom Z.of_nat 0) 0
           true (1 # 4) true ops H).
Defined.

(** ** What the window holds *)

Lemma slot_source_recent (k i : nat) :
  (i < k)%nat -> (k <= i + 10)%nat -> slot_source k (i mod 10) = (10 + i)%nat.
Proof.
  intros H1 H2. unfold slot_source.
  pose proof (Nat.div_mod_eq i 10) as Hi.
  pose proof (Nat.div_mod_eq k 10) as Hk.
  pose proof (Nat.mod_upper_bound i 10 ltac:(lia)) as Hri.
  pose proof (Nat.mod_upper_bound k 10 ltac:(lia)) as Hrk.
  remember (i mod 10)%nat as ri. remember (k mod 10)%nat as rk.
  remember (i / 10)%nat as qi. remember (k / 10)%nat as qk.
  assert (Hq : qk = qi \/ qk = S qi) by lia.
  destruct Hq as [Hq|Hq]; subst qk.
  - replace (ri + 10 - rk)%nat with (10 - (rk - ri))%nat by lia.
    rewrite Nat.mod_small by lia. lia.
  - destruct (Nat.eq_dec rk ri) as [E|E].
    + replace (ri + 10 - rk)%nat with 10%nat by lia.
      change (10 mod 10)%nat with 0%nat. lia.
    + replace (ri + 10 - rk)%nat with ((ri - rk) + 1 * 10)%nat by lia.
      rewrite Nat.Div0.mod_add, Nat.mod_small by lia. lia.
Qed.

Lemma slot_source_unwritten (k j : nat) :
  (k <= j)%nat -> (j < 10)%nat -> slot_source k j = j.
Proof.
  intros H1 H2. unfold slot_source. rewrite (Nat.mod_small k) by lia.
  destruct (Nat.eq_dec k 0%nat) as [->|E].
  - replace (j + 10 - 0)%nat with (j + 1 * 10)%nat by lia.
    rewrite Nat.Div0.mod_add, Nat.mod_small by lia. lia.
  - destruct (Nat.eq_dec j k) as [->|E'].
    + replace (k + 10 - k)%nat with 10%nat by lia.
      change (10 mod 10)%nat with 0%nat. lia.
    + replace (j + 10 - k)%nat with ((j - k) + 1 * 10)%nat by lia.
      rewrite Nat.Div0.mod_add, Nat.mod_small by lia. lia.
Qed.

(** X15. A new sampler fed the samples [ts]: every one of the last ten
    samples, the one of rank [i] say (from 0), is in slot [i mod 10] of the
    buffer, and a slot that has not been written yet still holds 0. *)
Theorem sample_kept_in_slot (s0 : Workshop) (ts : list Q) (i : nat) (t : Q) :
  fresh_sampler s0 -> leds_ok s0 -> bounds_ok s0 ->
  ts !! i = Some t -> (length ts <= i + 10)%nat ->
  exists s : Workshop,
    slow_ticks ts s0 = (Ok tt, s) /\
    avg_temp_calc s !! (i mod 10)%nat = Some t /\
    (forall j : nat, (length ts <= j)%nat -> (j < 10)%nat ->
       avg_temp_calc s !! j = Some 0%Q).
Proof.
  intros Hf Hl Hb Hi Hrecent.
  destruct (slow_ticks_window s0 ts Hf Hl Hb) as (s & Hrun & _ & Hw & _).
  destruct Hw as (_ & _ & _ & Hslots & _).
  pose proof (lookup_lt_Some _ _ _ Hi) as Hlt.
  exists s. split; [exact Hrun|]. split.
  - rewrite Hslots by lia. rewrite slot_source_recent by assumption.
    unfold history. rewrite lookup_app_r by (rewrite length_replicate; lia).
    rewrite length_replicate. replace (10 + i - 10)%nat with i by lia. exact Hi.
  - intros j Hj Hj10. rewrite Hslots by exact Hj10.
    rewrite slot_source_unwritten by assumption.
    unfold history. rewrite lookup_app_l by (rewrite length_replicate; exact Hj10).
    apply lookup_replicate_2. exact Hj10.
Qed.

Lemma sample_kept_in_slot_witness :
  let ts := [20; 21; 22; 23; 24; 25; 26; 27; 28; 29; 30; 31]%Q in
  (fresh_sampler lab /\ leds_ok lab /\ bounds_ok lab /\
   ts !! 11%nat = Some 31%Q /\ (length ts <= 11 + 10)%nat) /\
  exists s : Workshop,
    slow_ticks ts lab = (Ok tt, s) /\
    avg_temp_calc s !! (11 mod 10)%nat = Some 31%Q /\
    (forall j : nat, (length ts <= j)%nat -> (j < 10)%nat ->
       avg_temp_calc s !! j = Some 0%Q).
Proof.
  intros ts.
  assert (H : fresh_sampler lab /\ leds_ok lab /\ bounds_ok lab /\
              ts !! 11%nat = Some 31%Q /\ (length ts <= 11 + 10)%nat).
  { split; [repeat split|]. split; [reflexivity|]. split; [reflexivity|].
    split; [reflexivity|]. cbn. lia. }
  split; [exact H|].
  destruct H as (Hf & Hl & Hb & Hi & Hr).
  exact (sample_kept_in_slot lab ts 11 31 Hf Hl Hb Hi Hr).
Defined.




(** ** Requests *)

(** X17. A GET never raises and never changes the object: it answers 200
    with the values under the path when the path is in the tree, and 400
    with the not-found error when it is not. *)
Theorem get_request_answered (t : tree) (path : list string) (s : Workshop) :
  (forall node : tree, resolve t path = Some node ->
     WorkshopAdapter_get t path s =
     (Ok (mkResponse (Payload (read s node)) "application/json" 200), s)) /\
  (resolve t path = None ->
     WorkshopAdapter_get t path s =
     (Ok (mkResponse (ErrorMessage (NotFound path)) "application/json" 400), s)).
Proof.
  unfold WorkshopAdapter_get, Workshop_get, ParameterTree.get. split.
  - intros node H. rewrite H. reflexivity.
  - intros H. rewrite H. reflexivity.
Qed.

Lemma get_request_answered_witness :
  let t := param_tree "1.0" "6.0" true in
  (forall node : tree, resolve t ["leds"; "red"] = Some node ->
     WorkshopAdapter_get t ["leds"; "red"] lab =
     (Ok (mkResponse (Payload (read lab node)) "application/json" 200), lab)) /\
  (resolve t ["leds"; "red"] = None ->
     WorkshopAdapter_get t ["leds"; "red"] lab =
     (Ok (mkResponse (ErrorMessage (NotFound ["leds"; "red"]))
            "application/json" 400), lab)).
Proof.
  exact (get_request_answered (param_tree "1.0" "6.0" true) ["leds"; "red"] lab).
Defined.

(** X18. A PUT of a level to an LED of an object with its three LED states
    answers 200 with the level just written, has commanded that level on
    the LED's pin, and a GET of the LED then answers the same level. *)
Theorem put_led_round_trip (v1 v2 : string) (b : bool) (c : colour) (v : Z)
    (s : Workshop) :
  leds_ok s ->
  WorkshopAdapter_put (param_tree v1 v2 b) ["leds"; led_key c]
    (Some (Val (VInt v))) s =
  (Ok (mkResponse (Payload (Val (VInt v))) "application/json" 200),
   commanded (pin c) v s) /\
  WorkshopAdapter_get (param_tree v1 v2 b) ["leds"; led_key c]
    (commanded (pin c) v s) =
  (Ok (mkResponse (Payload (Val (VInt v))) "application/json" 200),
   commanded (pin c) v s).
Proof.
  intros Hl. unfold leds_ok in Hl.
  assert (Hset : Workshop_set (param_tree v1 v2 b) ["leds"; led_key c]
                   (Val (VInt v)) s = (Ok tt, commanded (pin c) v s)).
  { destruct c; unfold Workshop_set, ParameterTree.set;
      cbn [resolve param_tree ParameterTree.lookup String.eqb Ascii.eqb Bool.eqb
           led_tree merge setter_of coerce led_key pin];
      rewrite set_led_state_ok by (cbv delta [RED YELLOW GREEN]; lia);
      reflexivity. }
  assert (Hget : Workshop_get (param_tree v1 v2 b) ["leds"; led_key c]
                   (commanded (pin c) v s) =
                 (Ok (Val (VInt v)), commanded (pin c) v s)).
  { unfold Workshop_get, ParameterTree.get, commanded.
    destruct (led_states s) as [|x [|y [|z [|w l]]]]; try discriminate Hl.
    destruct c; reflexivity. }
  unfold WorkshopAdapter_put, WorkshopAdapter_get. rewrite Hset, Hget.
  split; reflexivity.
Qed.

Lemma put_led_round_trip_witness :
  leds_ok lab /\
  (WorkshopAdapter_put (param_tree "1.0" "6.0" true) ["leds"; led_key Yellow]
     (Some (Val (VInt 1))) lab =
   (Ok (mkResponse (Payload (Val (VInt 1))) "application/json" 200),
    commanded (pin Yellow) 1 lab) /\
   WorkshopAdapter_get (param_tree "1.0" "6.0" true) ["leds"; led_key Yellow]
     (commanded (pin Yellow) 1 lab) =
   (Ok (mkResponse (Payload (Val (VInt 1))) "application/json" 200),
    commanded (pin Yellow) 1 lab)).
Proof.
  assert (H : leds_ok lab) by reflexivity.
  split; [exact H|].
  exact (put_led_round_trip "1.0" "6.0" true Yellow 1 lab H).
Defined.

(** X19. A PUT whose body cannot be decoded, or whose path is not in the
    tree, or whose path is a leaf without a setter, answers 400 and leaves
    the object as it was. *)
Theorem put_refused_unchanged (t : tree) (path : list string) (d : data)
    (s : Workshop) :
  WorkshopAdapter_put t path None s =
    (Ok (mkResponse DecodeFailure "application/json" 400), s) /\
  (resolve t path = None ->
   WorkshopAdapter_put t path (Some d) s =
   (Ok (mkResponse (ErrorMessage (NotFound path)) "application/json" 400), s)) /\
  (forall (k : kind) (getter : Workshop -> denote k) (sl : slot k),
     resolve t path = Some (Leaf k getter sl) -> setter_of sl = None ->
     WorkshopAdapter_put t path (Some d) s =
     (Ok (mkResponse (ErrorMessage (ReadOnly path)) "application/json" 400), s)).
Proof.
  split; [reflexivity|]. split.
  - intros H. unfold WorkshopAdapter_put. rewrite (set_missing t path d s H).
    reflexivity.
  - intros k getter sl H Hs. unfold WorkshopAdapter_put.
    rewrite (set_read_only t path k getter sl d s H Hs). reflexivity.
Qed.

Lemma put_refused_unchanged_witness :
  let t := param_tree "1.0" "6.0" true in
  let path := ["temperature"; "rolling_avg"] in
  WorkshopAdapter_put t path None lab =
    (Ok (mkResponse DecodeFailure "application/json" 400), lab) /\
  (resolve t path = None ->
   WorkshopAdapter_put t path (Some (Val (VFloat 20))) lab =
   (Ok (mkResponse (ErrorMessage (NotFound path)) "application/json" 400), lab)) /\
  (forall (k : kind) (getter : Workshop -> denote k) (sl : slot k),
     resolve t path = Some (Leaf k getter sl) -> setter_of sl = None ->
     WorkshopAdapter_put t path (Some (Val (VFloat 20))) lab =
     (Ok (mkResponse (ErrorMessage (ReadOnly path)) "application/json" 400), lab)).
Proof.
  exact (put_refused_unchanged (param_tree "1.0" "6.0" true)
           ["temperature"; "rolling_avg"] (Val (VFloat 20)) lab).
Defined.
